(** * Image vector index creation sample: embedding client, batch
      materializer, record store loader and index publisher

    A shallow embedding of the code cells of
    [demo-python/code/multimodal/azure-search-vector-image-index-creation-python-sample.ipynb]:

    - cell 5, the settings read from the environment;
    - cell 7, [vectorize_image]: one HTTP call wrapped in a tenacity
      [Retrying] loop;
    - cell 9, the loop that embeds every image of the manifest and writes
      one JSON line per image to [output.jsonl];
    - cell 13, the loop that reads [output.jsonl] back and uploads the
      documents.

    Python values are modelled by the inductive type [json], Python
    exceptions by [exn], and the effects of the cells (files, HTTP
    requests, sleeping, printing, uploads) by a state-and-exception monad
    over the record [world]. *)

From Stdlib Require Import Ascii String DecimalString DecimalNat.
From Stdlib Require DecimalPos DecimalZ DecimalFacts.
From stdpp Require Import gmap strings list fin_maps.

Open Scope string_scope.
Open Scope list_scope.
Open Scope Z_scope.

(** ** Python strings

    A Python [str] is modelled by a Rocq [string]; its characters stand for
    the code points 0..255. *)

Module Str.

(** [s[n:]] *)
Fixpoint drop (n : nat) (s : string) : string :=
  match n, s with
  | O, _ => s
  | S _, EmptyString => EmptyString
  | S n', String _ s' => drop n' s'
  end.

(** [s[:n]] *)
Fixpoint take (n : nat) (s : string) : string :=
  match n, s with
  | O, _ => EmptyString
  | S _, EmptyString => EmptyString
  | S n', String c s' => String c (take n' s')
  end.

Fixpoint rfind_from (c : ascii) (s : string) (i last : Z) : Z :=
  match s with
  | EmptyString => last
  | String x s' => rfind_from c s' (i + 1) (if Ascii.eqb x c then i else last)
  end.

(** [s.rfind(c)]: the highest index of [c] in [s], or [-1]. *)
Definition rfind (c : ascii) (s : string) : Z := rfind_from c s 0 (-1).

(** [s.startswith(c)] and [s.endswith(c)] for a one-character [c]. *)
Definition startswith (c : ascii) (s : string) : bool :=
  match s with
  | String x _ => Ascii.eqb x c
  | EmptyString => false
  end.

Fixpoint endswith (c : ascii) (s : string) : bool :=
  match s with
  | EmptyString => false
  | String x EmptyString => Ascii.eqb x c
  | String _ s' => endswith c s'
  end.

(** [str.isspace] on the code points 0..255: the characters that
    [str.strip()] removes. *)
Definition isspace (c : ascii) : bool :=
  let n := Z.of_nat (nat_of_ascii c) in
  ((9 <=? n) && (n <=? 13)) || ((28 <=? n) && (n <=? 32))
  || (n =? 133) || (n =? 160).

Fixpoint lstrip (s : string) : string :=
  match s with
  | String c s' => if isspace c then lstrip s' else s
  | EmptyString => EmptyString
  end.

(** [rstrip] keeps a character when it is not a space or when something
    is left after it. *)
Fixpoint rstrip (s : string) : string :=
  match s with
  | EmptyString => EmptyString
  | String c s' =>
      match rstrip s' with
      | EmptyString => if isspace c then EmptyString else String c EmptyString
      | r => String c r
      end
  end.

(** [s.strip()] *)
Definition strip (s : string) : string := rstrip (lstrip s).

(** [f'{n}'] for a non-negative [int]. *)
Definition of_nat (n : nat) : string := NilZero.string_of_uint (Nat.to_uint n).

(** [str(z)] for an [int]. *)
Definition of_Z (z : Z) : string := NilZero.string_of_int (Z.to_int z).

End Str.

(** ** [posixpath] *)

Module PosixPath.

Definition sep : ascii := "/"%char.
Definition extsep : ascii := "."%char.

(** [posixpath.join(a, *p)] *)
Definition join_step (path b : string) : string :=
  if Str.startswith sep b then b
  else if (String.eqb path "" || Str.endswith sep path)%bool then path +:+ b
  else path +:+ String sep b.

Definition join (a : string) (p : list string) : string := foldl join_step a p.

(** [posixpath.basename(p)] *)
Definition basename (p : string) : string :=
  let i := Str.rfind sep p + 1 in
  Str.drop (Z.to_nat i) p.

(** The [while filenameIndex < dotIndex] loop of [genericpath._splitext]:
    [true] when some character of [p[filenameIndex:dotIndex]] is not a
    dot.  [n] is [dotIndex - filenameIndex]. *)
Fixpoint has_non_dot (n : nat) (filenameIndex : nat) (p : string) : bool :=
  match n with
  | O => false
  | S n' =>
      match String.get filenameIndex p with
      | Some c => if Ascii.eqb c extsep then has_non_dot n' (S filenameIndex) p else true
      | None => true
      end
  end.

(** [posixpath.splitext(p)], that is [genericpath._splitext(p, '/', None, '.')]. *)
Definition splitext (p : string) : string * string :=
  let sepIndex := Str.rfind sep p in
  let dotIndex := Str.rfind extsep p in
  if (sepIndex <? dotIndex)
     && has_non_dot (Z.to_nat (dotIndex - (sepIndex + 1))) (Z.to_nat (sepIndex + 1)) p
  then (Str.take (Z.to_nat dotIndex) p, Str.drop (Z.to_nat dotIndex) p)
  else (p, "").

End PosixPath.

(** ** Python values that travel through [json]

    [json.load] and [response.json()] produce [None], [bool], [int],
    [float], [str], [list] and [dict] values.  A [dict] is an association
    list in insertion order; a [float] is carried by the literal that
    [json.dumps] prints for it. *)

#[warnings="-register-all"]
Inductive json : Type :=
| JNull
| JBool (b : bool)
| JInt (z : Z)
| JFloat (literal : string)
| JStr (s : string)
| JArr (xs : list json)
| JObj (kvs : list (string * json)).

(** [d.get(key)] on the association list of a [dict]. *)
Fixpoint assoc (key : string) (kvs : list (string * json)) : option json :=
  match kvs with
  | [] => None
  | (k, v) :: rest => if String.eqb k key then Some v else assoc key rest
  end.

(** A float literal denotes zero when no digit of its mantissa is non-zero. *)
Fixpoint mantissa_is_zero (s : string) : bool :=
  match s with
  | EmptyString => true
  | String c s' =>
      if (Ascii.eqb c "e" || Ascii.eqb c "E")%bool then true
      else if (Ascii.eqb c "0" || Ascii.eqb c "." || Ascii.eqb c "-")%bool
           then mantissa_is_zero s'
           else false
  end.

(** Truth value of a Python object, as tested by [if image_path:]. *)
Definition truthy (v : json) : bool :=
  match v with
  | JNull => false
  | JBool b => b
  | JInt z => negb (z =? 0)
  | JFloat l => negb (mantissa_is_zero l)
  | JStr s => negb (String.eqb s "")
  | JArr xs => match xs with [] => false | _ => true end
  | JObj kvs => match kvs with [] => false | _ => true end
  end.

(** *** [json.dumps] with its default arguments

    Separators are [", "] and [": "]; with [ensure_ascii] every character
    outside [' '..'~'] is escaped. *)

Definition dquote : ascii := "034"%char.
Definition newline : ascii := "010"%char.

Definition hex_digit (n : Z) : ascii :=
  ascii_of_nat (Z.to_nat (if n <? 10 then 48 + n else 87 + n)).

Definition backslash : ascii := "092"%char.

(** A two-character escape: a backslash followed by [c]. *)
Definition esc (c : ascii) : string := String backslash (String c "").

Definition escape_char (c : ascii) : string :=
  let n := Z.of_nat (nat_of_ascii c) in
  if n =? 34 then esc dquote
  else if n =? 92 then esc backslash
  else if n =? 10 then esc "n"
  else if n =? 13 then esc "r"
  else if n =? 9 then esc "t"
  else if n =? 8 then esc "b"
  else if n =? 12 then esc "f"
  else if (32 <=? n) && (n <=? 126) then String c ""
  else esc "u" +:+ "00" +:+ String (hex_digit (n / 16)) (String (hex_digit (n mod 16)) "").

Fixpoint escape (s : string) : string :=
  match s with
  | EmptyString => ""
  | String c s' => escape_char c +:+ escape s'
  end.

Definition dumps_str (s : string) : string :=
  String dquote (escape s +:+ String dquote "").

Fixpoint json_dumps (v : json) : string :=
  match v with
  | JNull => "null"
  | JBool true => "true"
  | JBool false => "false"
  | JInt z => Str.of_Z z
  | JFloat l => l
  | JStr s => dumps_str s
  | JArr xs =>
      "[" +:+ (fix items (l : list json) : string :=
                match l with
                | [] => ""
                | x :: l' =>
                    json_dumps x +:+ match l' with [] => "" | _ => ", " +:+ items l' end
                end) xs +:+ "]"
  | JObj kvs =>
      "{" +:+ (fix members (l : list (string * json)) : string :=
                match l with
                | [] => ""
                | (k, x) :: l' =>
                    dumps_str k +:+ ": " +:+ json_dumps x
                    +:+ match l' with [] => "" | _ => ", " +:+ members l' end
                end) kvs +:+ "}"
  end.

(** ** Exceptions

    The subclasses of [Exception] that the cells can meet.  [HTTPError] is
    [requests.HTTPError], raised by [raise_for_status];
    [RequestsConnectionError] and [Timeout] are the other
    [requests.RequestException]s that [requests.post] raises when no
    response arrives; [RetryError] is tenacity's, and carries the exception
    of the last attempt. *)

Inductive exn : Type :=
| HTTPError (status : Z)
| RequestsConnectionError
| Timeout
| OSError (path : string)
| JSONDecodeError
| KeyError (key : string)
| TypeError
| AttributeError
| RetryError (last_attempt : exn).

Inductive result (A : Type) : Type :=
| Ok (a : A)
| Raise (e : exn).
Arguments Ok {A} a.
Arguments Raise {A} e.

(** ** The world the cells act on *)

(** What [requests.post(url, params=params, headers=headers, data=image_data)]
    sends that depends on the image: the [Content-Type] header and the
    bytes of the file. *)
Record request : Type := {
  content_type : option string;
  data : string;
}.

(** A response: [status_code], and what [response.json()] gives ([None]
    when the body is not JSON). *)
Record response : Type := {
  status_code : Z;
  body : option json;
}.

(** What one [requests.post] call does: a response arrives, or the call
    raises. *)
Inductive post_outcome : Type :=
| Responds (r : response)
| Fails (e : exn).

(** A line written by [print]. *)
Inductive output_line : Type :=
| ErrorProcessing (idx : nat) (e : exn)
    (* f"Error processing image at index {idx}: {e}" *)
| ResultsSaved (file : string)
    (* f"Results are saved to {output_json_file}" *)
| Indexed (key : string) (status : Z).
    (* f'Indexed {result.key} with status code {result.status_code}' *)

Record world : Type := {
  files : gmap string string;     (* path |-> content *)
  posted : list request;          (* the requests.post calls so far, oldest first *)
  slept : nat;                    (* the number of back-off sleeps so far *)
  stdout : list output_line;      (* the lines printed so far, oldest first *)
  uploaded : list (list json);    (* the upload_documents calls so far *)
}.

Definition set_files (f : gmap string string) (w : world) : world :=
  {| files := f; posted := posted w; slept := slept w;
     stdout := stdout w; uploaded := uploaded w |}.

Definition set_posted (p : list request) (w : world) : world :=
  {| files := files w; posted := p; slept := slept w;
     stdout := stdout w; uploaded := uploaded w |}.

Definition set_slept (n : nat) (w : world) : world :=
  {| files := files w; posted := posted w; slept := n;
     stdout := stdout w; uploaded := uploaded w |}.

Definition set_stdout (o : list output_line) (w : world) : world :=
  {| files := files w; posted := posted w; slept := slept w;
     stdout := o; uploaded := uploaded w |}.

Definition set_uploaded (u : list (list json)) (w : world) : world :=
  {| files := files w; posted := posted w; slept := slept w;
     stdout := stdout w; uploaded := u |}.

(** ** The monad of the cells: state and exceptions *)

Definition M (A : Type) : Type := world -> result A * world.

Definition ret {A} (a : A) : M A := fun w => (Ok a, w).

Definition raise {A} (e : exn) : M A := fun w => (Raise e, w).

Definition bind {A B} (m : M A) (k : A -> M B) : M B :=
  fun w =>
    match m w with
    | (Ok a, w') => k a w'
    | (Raise e, w') => (Raise e, w')
    end.

(** [try: m  except Exception as e: handler e] *)
Definition try_except {A} (m : M A) (handler : exn -> M A) : M A :=
  fun w =>
    match m w with
    | (Ok a, w') => (Ok a, w')
    | (Raise e, w') => handler e w'
    end.

Definition lift {A} (r : result A) : M A := fun w => (r, w).

Declare Scope cell_scope.
Delimit Scope cell_scope with cell.
Notation "x <- m ;; k" := (bind m (fun x => k))
  (at level 100, m at next level, right associativity) : cell_scope.
Notation "m ;; k" := (bind m (fun _ => k))
  (at level 100, right associativity) : cell_scope.
Open Scope cell_scope.

(** [print(line)] *)
Definition print (line : output_line) : M unit :=
  fun w => (Ok tt, set_stdout (stdout w ++ [line]) w).

(** [time.sleep] between two attempts. *)
Definition sleep : M unit :=
  fun w => (Ok tt, set_slept (S (slept w)) w).

(** [open(path, 'rb')] / [open(path, 'r')] followed by reading the file. *)
Definition open_read (path : string) : M string :=
  fun w =>
    match files w !! path with
    | Some content => (Ok content, w)
    | None => (Raise (OSError path), w)
    end.

(** [open(path, 'w')]: the file is created or truncated.  The directory of
    the file is taken to exist, so the call does not raise. *)
Definition open_write (path : string) : M unit :=
  fun w => (Ok tt, set_files (<[path := ""]> (files w)) w).

(** [outfile.write(s)] on a file opened by [open_write]; every record is
    flushed as soon as it is written, so the text reaches the file at
    once. *)
Definition write (path : string) (s : string) : M unit :=
  fun w =>
    (Ok tt, set_files (<[path := default "" (files w !! path) +:+ s]> (files w)) w).

(** ** The cells *)

Section Cells.

(** The vision endpoint: what the call answers, given the calls made before
    it and the request. *)
Variable remote : list request -> request -> post_outcome.

(** [mimetypes.guess_type(path)[0]] *)
Variable guess_type : string -> option string.

(** [json.loads] *)
Variable loads : string -> result json.

(** The search service behind [SearchClient.upload_documents]: the key and
    the status code of every document, or an exception. *)
Variable index_service : list json -> result (list (string * Z)).

(** *** Cell 7: [vectorize_image] *)

Definition requests_post (req : request) : M response :=
  fun w =>
    let w' := set_posted (posted w ++ [req]) w in
    match remote (posted w) req with
    | Responds r => (Ok r, w')
    | Fails e => (Raise e, w')
    end.

(** [response.raise_for_status()] *)
Definition raise_for_status (r : response) : M unit :=
  if (400 <=? status_code r) && (status_code r <? 600)
  then raise (HTTPError (status_code r))
  else ret tt.

(** [retry_if_exception_type(requests.HTTPError)] *)
Definition retry_if_exception_type_HTTPError (e : exn) : bool :=
  match e with
  | HTTPError _ => true
  | _ => false
  end.

(** [stop_after_attempt(15)] *)
Definition max_attempt_number : nat := 15.

(** [for attempt in Retrying(retry=..., wait=..., stop=...): with attempt: body].

    [attempts_left] is [max_attempt_number - attempt_number] for the attempt
    being made, so tenacity's stop test
    [attempt_number >= max_attempt_number] is [attempts_left = 0].  An
    attempt that raises an exception the [retry] test rejects re-raises it;
    one that raises a retried exception when the stop test holds raises
    [RetryError] (the loop is built without [reraise=True]); otherwise the
    loop sleeps and makes the next attempt. *)
Fixpoint Retrying {A} (attempts_left : nat) (body : M A) : M A :=
  try_except body (fun e =>
    if retry_if_exception_type_HTTPError e then
      match attempts_left with
      | O => raise (RetryError e)
      | S n => sleep ;; Retrying n body
      end
    else raise e).

(** The body of the [with attempt:] block; it leaves [response] bound. *)
Definition attempt (image_path : string) (mime_type : option string) : M response :=
  image_data <- open_read image_path ;;
  response <- requests_post {| content_type := mime_type; data := image_data |} ;;
  (if negb (status_code response =? 200) then raise_for_status response else ret tt) ;;
  ret response.

(** [response.json()] *)
Definition response_json (r : response) : M json :=
  match body r with
  | Some v => ret v
  | None => raise JSONDecodeError
  end.

(** [v[key]] for a [str] key. *)
Definition subscript (v : json) (key : string) : M json :=
  match v with
  | JObj kvs =>
      match assoc key kvs with
      | Some x => ret x
      | None => raise (KeyError key)
      end
  | _ => raise TypeError
  end.

Definition vectorize_image (image_path : string) : M json :=
  let mime_type := guess_type image_path in
  response <- Retrying (max_attempt_number - 1) (attempt image_path mime_type) ;;
  v <- response_json response ;;
  subscript v "vector".

(** *** Cell 9: embed the images of the manifest *)

Definition apples_image_directory : string :=
  PosixPath.join ".." [".."; "data"; "images"; "apples"].
Definition input_json_file : string :=
  PosixPath.join apples_image_directory ["input.json"].
Definition output_json_file : string :=
  PosixPath.join apples_image_directory ["output.jsonl"].

(** [image_data.get('image_path', None)]: only a [dict] has [get]. *)
Definition get (image_data : json) (key : string) : M json :=
  match image_data with
  | JObj kvs => ret (default JNull (assoc key kvs))
  | _ => raise AttributeError
  end.

(** [os.path.join(apples_image_directory, image_path)] and
    [os.path.basename(image_path)] reject what is not a [str]. *)
Definition os_path_join (a : string) (b : json) : M string :=
  match b with
  | JStr s => ret (PosixPath.join a [s])
  | _ => raise TypeError
  end.

Definition os_path_basename (p : json) : M string :=
  match p with
  | JStr s => ret (PosixPath.basename s)
  | _ => raise TypeError
  end.

(** The dictionary [result] of one image. *)
Definition output_record (idx : nat) (vector : json) (filename : string) : json :=
  JObj [("id", JStr (Str.of_nat idx));
        ("image_vector", vector);
        ("description", JStr filename)].

(** One turn of [for idx, image_data in enumerate(images)]. *)
Definition embed_image (idx : nat) (image_data : json) : M unit :=
  image_path <- get image_data "image_path" ;;
  if truthy image_path then
    vector <- try_except
                (p <- os_path_join apples_image_directory image_path ;;
                 vectorize_image p)
                (fun e => print (ErrorProcessing idx e) ;; ret JNull) ;;
    base <- os_path_basename image_path ;;
    let filename := fst (PosixPath.splitext base) in
    let result := output_record idx vector filename in
    write output_json_file (json_dumps result) ;;
    write output_json_file (String newline "")
  else ret tt.

Fixpoint embed_from (idx : nat) (images : list json) : M unit :=
  match images with
  | [] => ret tt
  | image_data :: rest => embed_image idx image_data ;; embed_from (S idx) rest
  end.

(** What [enumerate(images)] walks through: the items of a [list], the keys
    of a [dict], the characters of a [str]; nothing else that [json.load]
    returns is iterable. *)
Definition iterate (images : json) : M (list json) :=
  match images with
  | JArr xs => ret xs
  | JObj kvs => ret (map (fun kv => JStr (fst kv)) kvs)
  | JStr s => ret (map (fun c => JStr (String c "")) (list_ascii_of_string s))
  | _ => raise TypeError
  end.

(** The cell from [with open(output_json_file, 'w') as outfile:] on, for the
    value [images] that [json.load] returned. *)
Definition embed_images (images : json) : M unit :=
  open_write output_json_file ;;
  items <- iterate images ;;
  embed_from 0 items ;;
  print (ResultsSaved output_json_file).

(** *** Cell 13: push the stored records to the index *)

Definition carriage_return : ascii := "013"%char.

(** Text mode reads with universal newlines: ["\r\n"] and ["\r"] arrive as
    ["\n"]. *)
Fixpoint universal_newlines (s : string) : string :=
  match s with
  | EmptyString => EmptyString
  | String c s' =>
      if Ascii.eqb c carriage_return then
        match s' with
        | String c' _ =>
            if Ascii.eqb c' newline then universal_newlines s'
            else String newline (universal_newlines s')
        | EmptyString => String newline EmptyString
        end
      else String c (universal_newlines s')
  end.

(** [for line in file]: the lines, each with its newline. *)
Fixpoint readlines (s : string) : list string :=
  match s with
  | EmptyString => []
  | String c s' =>
      if Ascii.eqb c newline then String c "" :: readlines s'
      else match readlines s' with
           | [] => [String c ""]
           | l :: ls => String c l :: ls
           end
  end.

(** The loop [for line in file: data.append(json.loads(line.strip()))]. *)
Fixpoint load_lines (lines : list string) (data : list json) : M (list json) :=
  match lines with
  | [] => ret data
  | line :: rest =>
      json_data <- lift (loads (Str.strip line)) ;;
      load_lines rest (data ++ [json_data])
  end.

(** [search_client.upload_documents(data)] *)
Definition upload_documents (documents : list json) : M (list (string * Z)) :=
  fun w =>
    (index_service documents, set_uploaded (uploaded w ++ [documents]) w).

Fixpoint print_results (results : list (string * Z)) : M unit :=
  match results with
  | [] => ret tt
  | (key, status) :: rest => print (Indexed key status) ;; print_results rest
  end.

Definition push_documents : M unit :=
  file <- open_read output_json_file ;;
  data <- load_lines (readlines (universal_newlines file)) [] ;;
  results <- upload_documents data ;;
  print_results results.

End Cells.

(** ** A decoder to run the cells with: [json.loads]

    The decoder follows [json.decoder] and [json.scanner] of the standard
    library: optional white space around one value, the number pattern
    of [NUMBER_RE] (an optional minus sign, [0] or a non-zero digit followed by
    digits, an optional fraction, an optional exponent), strict strings, and the
    constants [NaN], [Infinity] and [-Infinity].  A number with a fraction
    or an exponent is kept as its literal.  An escape [\uXXXX] above
    [00ff] names a code point that [string] does not have and is not
    decoded.  [fuel] bounds the nesting; [json_loads] gives enough of it
    for every text. *)

Fixpoint skip_ws (s : string) : string :=
  match s with
  | String c s' =>
      if (Ascii.eqb c " " || Ascii.eqb c "009" || Ascii.eqb c newline
          || Ascii.eqb c carriage_return)%bool
      then skip_ws s' else s
  | EmptyString => EmptyString
  end.

Fixpoint strip_prefix (p s : string) : option string :=
  match p, s with
  | EmptyString, _ => Some s
  | String a p', String b s' => if Ascii.eqb a b then strip_prefix p' s' else None
  | String _ _, EmptyString => None
  end.

Definition is_digit (c : ascii) : bool :=
  let n := Z.of_nat (nat_of_ascii c) in (48 <=? n) && (n <=? 57).

(** The longest prefix of digits, and what follows it. *)
Fixpoint span_digits (s : string) : string * string :=
  match s with
  | String c s' =>
      if is_digit c then let (d, r) := span_digits s' in (String c d, r) else ("", s)
  | EmptyString => ("", "")
  end.

Fixpoint digits_value (s : string) (acc : Z) : Z :=
  match s with
  | String c s' => digits_value s' (10 * acc + (Z.of_nat (nat_of_ascii c) - 48))
  | EmptyString => acc
  end.

Definition hex_value (c : ascii) : option Z :=
  let n := Z.of_nat (nat_of_ascii c) in
  if (48 <=? n) && (n <=? 57) then Some (n - 48)
  else if (97 <=? n) && (n <=? 102) then Some (n - 87)
  else if (65 <=? n) && (n <=? 70) then Some (n - 55)
  else None.

(** [py_scanstring], from the character after the opening quote: the
    decoded string and the text after the closing quote. *)
Fixpoint scanstring (s : string) : option (string * string) :=
  match s with
  | EmptyString => None
  | String c s' =>
      if Ascii.eqb c dquote then Some ("", s')
      else if Ascii.eqb c backslash then
        match s' with
        | EmptyString => None
        | String e s2 =>
            let simple (x : ascii) :=
              match scanstring s2 with
              | Some (str, r) => Some (String x str, r)
              | None => None
              end in
            if Ascii.eqb e dquote then simple dquote
            else if Ascii.eqb e backslash then simple backslash
            else if Ascii.eqb e "/" then simple "/"%char
            else if Ascii.eqb e "b" then simple "008"%char
            else if Ascii.eqb e "f" then simple "012"%char
            else if Ascii.eqb e "n" then simple newline
            else if Ascii.eqb e "r" then simple carriage_return
            else if Ascii.eqb e "t" then simple "009"%char
            else if Ascii.eqb e "u" then
              match s2 with
              | String h1 (String h2 (String h3 (String h4 s3))) =>
                  match hex_value h1, hex_value h2, hex_value h3, hex_value h4 with
                  | Some 0, Some 0, Some a, Some b =>
                      match scanstring s3 with
                      | Some (str, r) =>
                          Some (String (ascii_of_nat (Z.to_nat (16 * a + b))) str, r)
                      | None => None
                      end
                  | _, _, _, _ => None
                  end
              | _ => None
              end
            else None
        end
      else if Z.of_nat (nat_of_ascii c) <? 32 then None
      else
        match scanstring s' with
        | Some (str, r) => Some (String c str, r)
        | None => None
        end
  end.

(** [NUMBER_RE], then [NaN], [Infinity] and [-Infinity]. *)
Definition scan_number (s : string) : option (json * string) :=
  let (sign, s1) :=
    match s with
    | String c r => if Ascii.eqb c "-" then ("-", r) else ("", s)
    | EmptyString => ("", s)
    end in
  let (digits, s2) := span_digits s1 in
  match digits with
  | EmptyString =>
      match strip_prefix "NaN" s, strip_prefix "Infinity" s, strip_prefix "-Infinity" s with
      | Some r, _, _ => Some (JFloat "NaN", r)
      | _, Some r, _ => Some (JFloat "Infinity", r)
      | _, _, Some r => Some (JFloat "-Infinity", r)
      | _, _, _ => None
      end
  | String d ds =>
      let (integer, s3) := if Ascii.eqb d "0" then ("0", ds +:+ s2) else (digits, s2) in
      let (frac, s4) :=
        match s3 with
        | String c r =>
            if Ascii.eqb c "." then
              match span_digits r with
              | (EmptyString, _) => ("", s3)
              | (fd, r') => (String c fd, r')
              end
            else ("", s3)
        | EmptyString => ("", s3)
        end in
      let (exp, s5) :=
        match s4 with
        | String c r =>
            if (Ascii.eqb c "e" || Ascii.eqb c "E")%bool then
              let (esign, r1) :=
                match r with
                | String c' r' =>
                    if (Ascii.eqb c' "-" || Ascii.eqb c' "+")%bool
                    then (String c' "", r') else ("", r)
                | EmptyString => ("", r)
                end in
              match span_digits r1 with
              | (EmptyString, _) => ("", s4)
              | (ed, r') => (String c (esign +:+ ed), r')
              end
            else ("", s4)
        | EmptyString => ("", s4)
        end in
      match frac, exp with
      | EmptyString, EmptyString =>
          let n := digits_value integer 0 in
          Some (JInt (if String.eqb sign "-" then - n else n), s5)
      | _, _ => Some (JFloat (sign +:+ integer +:+ frac +:+ exp), s5)
      end
  end.

(** [dict(pairs)]: a key met again keeps its place and takes the new
    value. *)
Fixpoint dict_set (key : string) (v : json) (kvs : list (string * json))
  : list (string * json) :=
  match kvs with
  | [] => [(key, v)]
  | (k, x) :: rest =>
      if String.eqb k key then (k, v) :: rest else (k, x) :: dict_set key v rest
  end.

Fixpoint scan_once (fuel : nat) (s : string) : option (json * string) :=
  match fuel with
  | O => None
  | S fuel' =>
      match s with
      | EmptyString => None
      | String c s' =>
          if Ascii.eqb c dquote then
            match scanstring s' with
            | Some (str, r) => Some (JStr str, r)
            | None => None
            end
          else if Ascii.eqb c "{" then
            match skip_ws s' with
            | String c' r =>
                if Ascii.eqb c' "}" then Some (JObj [], r)
                else scan_members fuel' (String c' r) []
            | EmptyString => None
            end
          else if Ascii.eqb c "[" then
            match skip_ws s' with
            | String c' r =>
                if Ascii.eqb c' "]" then Some (JArr [], r)
                else scan_elements fuel' (String c' r) []
            | EmptyString => None
            end
          else
            match strip_prefix "null" s, strip_prefix "true" s, strip_prefix "false" s with
            | Some r, _, _ => Some (JNull, r)
            | _, Some r, _ => Some (JBool true, r)
            | _, _, Some r => Some (JBool false, r)
            | _, _, _ => scan_number s
            end
      end
  end
with scan_elements (fuel : nat) (s : string) (acc : list json) : option (json * string) :=
  match fuel with
  | O => None
  | S fuel' =>
      match scan_once fuel' s with
      | Some (v, r) =>
          match skip_ws r with
          | String c r' =>
              if Ascii.eqb c "," then scan_elements fuel' (skip_ws r') (acc ++ [v])
              else if Ascii.eqb c "]" then Some (JArr (acc ++ [v]), r')
              else None
          | EmptyString => None
          end
      | None => None
      end
  end
with scan_members (fuel : nat) (s : string) (acc : list (string * json))
  : option (json * string) :=
  match fuel with
  | O => None
  | S fuel' =>
      match s with
      | String q s1 =>
          if Ascii.eqb q dquote then
            match scanstring s1 with
            | Some (key, r) =>
                match skip_ws r with
                | String c r1 =>
                    if Ascii.eqb c ":" then
                      match scan_once fuel' (skip_ws r1) with
                      | Some (v, r2) =>
                          match skip_ws r2 with
                          | String c' r3 =>
                              if Ascii.eqb c' ","
                              then scan_members fuel' (skip_ws r3) (dict_set key v acc)
                              else if Ascii.eqb c' "}"
                                   then Some (JObj (dict_set key v acc), r3)
                                   else None
                          | EmptyString => None
                          end
                      | None => None
                      end
                    else None
                | EmptyString => None
                end
            | None => None
            end
          else None
      | EmptyString => None
      end
  end.

Definition json_loads (s : string) : result json :=
  match scan_once (2 * String.length s + 2) (skip_ws s) with
  | Some (v, r) =>
      match skip_ws r with
      | EmptyString => Ok v
      | String _ _ => Raise JSONDecodeError
      end
  | None => Raise JSONDecodeError
  end.

(** ** Words of the specification *)

(** The durable store is the text of [output.jsonl]. *)
Definition store (w : world) : string :=
  default "" (files w !! output_json_file).

(** The text of a store that holds the given records, one per line. *)
Definition store_line (record : json) : string :=
  json_dumps record +:+ String newline "".

Fixpoint store_text (records : list json) : string :=
  match records with
  | [] => ""
  | r :: rest => store_line r +:+ store_text rest
  end.

(** The locator of a manifest item: its [image_path], when that is a
    non-empty string. *)
Definition item_path (item : json) : option string :=
  match item with
  | JObj kvs =>
      match assoc "image_path" kvs with
      | Some (JStr s) => if String.eqb s "" then None else Some s
      | _ => None
      end
  | _ => None
  end.

(** An item without a locator: a [dict] whose [image_path] is missing,
    [null], empty, or any other false value. *)
Definition item_skipped (item : json) : bool :=
  match item with
  | JObj kvs => negb (truthy (default JNull (assoc "image_path" kvs)))
  | _ => false
  end.

Definition well_formed (item : json) : Prop :=
  is_Some (item_path item) \/ item_skipped item = true.

(** The manifest indices and the locators of the items that have one. *)
Fixpoint images_of (idx : nat) (items : list json) : list (nat * string) :=
  match items with
  | [] => []
  | item :: rest =>
      match item_path item with
      | Some p => (idx, p) :: images_of (S idx) rest
      | None => images_of (S idx) rest
      end
  end.

(** The base file name of a locator, its extension stripped. *)
Definition description_of (image_path : string) : string :=
  fst (PosixPath.splitext (PosixPath.basename image_path)).



(** The request that [vectorize_image] sends for a file. *)
Definition request_for (guess_type : string -> option string)
    (image_path content : string) : request :=
  {| content_type := guess_type image_path; data := content |}.

(** The world after [k] more requests [req], [s] of them followed by a
    sleep. *)
Definition after_requests (k s : nat) (req : request) (w : world) : world :=
  set_slept (slept w + s)%nat (set_posted (posted w ++ replicate k req) w).

(** The vector in the record of an item, and the line of the report about
    it, from what the embedding call of the item gave. *)
Definition vector_of (r : result json) : json :=
  match r with
  | Ok v => v
  | Raise _ => JNull
  end.

Definition report_of (idx : nat) (r : result json) : list output_line :=
  match r with
  | Ok _ => []
  | Raise e => [ErrorProcessing idx e]
  end.

(** The record of an item with a locator, whatever its vector. *)
Definition record_of (ip : nat * string) (record : json) : Prop :=
  exists v, record = output_record ip.1 v (description_of ip.2).

(** A line of the report that names an item with a locator. *)
Definition names_image (images : list (nat * string)) (line : output_line) : Prop :=
  exists idx e, line = ErrorProcessing idx e /\ idx ∈ images.*1.

(** The [id] field of a record. *)
Definition record_id (record : json) : option json :=
  match record with
  | JObj kvs => assoc "id" kvs
  | _ => None
  end.

(** A file of the image directory. *)
Definition in_apples (name : string) : string :=
  PosixPath.join apples_image_directory [name].

(** The records that a run of the loop appends to the store, and the lines
    that it prints, read off the embedding calls of the run. *)
Section Run.

Variable remote : list request -> request -> post_outcome.
Variable guess_type : string -> option string.

Fixpoint records_from (idx : nat) (items : list json) (w : world) : list json :=
  match items with
  | [] => []
  | item :: rest =>
      let later := records_from (S idx) rest (snd (embed_image remote guess_type idx item w)) in
      match item_path item with
      | Some p =>
          output_record idx
            (vector_of (fst (vectorize_image remote guess_type (in_apples p) w)))
            (description_of p) :: later
      | None => later
      end
  end.

Fixpoint report_from (idx : nat) (items : list json) (w : world) : list output_line :=
  match items with
  | [] => []
  | item :: rest =>
      let later := report_from (S idx) rest (snd (embed_image remote guess_type idx item w)) in
      match item_path item with
      | Some p =>
          report_of idx (fst (vectorize_image remote guess_type (in_apples p) w)) ++ later
      | None => later
      end
  end.

(** The world in which a run of the cell reaches the item of index [i]. *)
Definition world_at (i : nat) (items : list json) (w : world) : world :=
  snd (embed_from remote guess_type 0 (take i items)
         (snd (open_write output_json_file w))).

End Run.

(** ** Collaborators to run the cells with *)

(** [mimetypes.guess_type] on the extensions of the sample images. *)
Definition guess_by_extension (path : string) : option string :=
  let ext := snd (PosixPath.splitext path) in
  if (String.eqb ext ".jpg" || String.eqb ext ".jpeg")%bool then Some "image/jpeg"
  else if String.eqb ext ".png" then Some "image/png"
  else None.

(** A world with the given files in which nothing has happened yet. *)
Definition fresh_world (fs : gmap string string) : world :=
  {| files := fs; posted := []; slept := 0; stdout := []; uploaded := [] |}.

Definition vector_response (v : json) : post_outcome :=
  Responds {| status_code := 200; body := Some (JObj [("vector", v)]) |}.

Definition status_response (st : Z) : post_outcome :=
  Responds {| status_code := st; body := None |}.

(** An endpoint that answers every request with the same status. *)
Definition always_status (st : Z) (_ : list request) (_ : request) : post_outcome :=
  status_response st.

(** An endpoint that answers its first [k] requests with status [st] and
    the later ones with the vector [v]. *)
Definition failing_first (k : nat) (st : Z) (v : json)
    (history : list request) (_ : request) : post_outcome :=
  if (length history <? k)%nat then status_response st else vector_response v.

(** An endpoint that answers its [n]-th request with the [n]-th vector of
    the list, and with status 500 when the list is used up. *)
Definition answering (vs : list json) (history : list request) (_ : request)
  : post_outcome :=
  match vs !! length history with
  | Some v => vector_response v
  | None => status_response 500
  end.

(** An endpoint that rejects one image, by its bytes, with status [st], and
    answers every other with the vector [v]. *)
Definition rejecting (bad : string) (st : Z) (v : json)
    (_ : list request) (req : request) : post_outcome :=
  if String.eqb (data req) bad then status_response st else vector_response v.

(** An endpoint that cannot be reached. *)
Definition unreachable (_ : list request) (_ : request) : post_outcome :=
  Fails RequestsConnectionError.

(** A search service that accepts every document with status 201, keyed by
    its [id]. *)
Definition accepting_service (documents : list json) : result (list (string * Z)) :=
  Ok (map (fun d => (match record_id d with
                     | Some (JStr k) => k
                     | _ => ""
                     end, 201)) documents).

(** A manifest entry for an image. *)
Definition entry (image_path : string) : json :=
  JObj [("image_path", JStr image_path)].

(** Five images, their bytes and their manifest. *)
Definition five_names : list string :=
  ["img0.jpg"; "img1.jpg"; "img2.jpg"; "img3.jpg"; "img4.jpg"].

Definition five_images : gmap string string :=
  list_to_map [(in_apples "img0.jpg", "0"); (in_apples "img1.jpg", "1");
               (in_apples "img2.jpg", "2"); (in_apples "img3.jpg", "3");
               (in_apples "img4.jpg", "4")].

Definition five_entries : list json := map entry five_names.

(** A manifest in which only the last of four entries names an image. *)
Definition sparse_entries : list json :=
  [JObj []; JObj [("image_path", JNull)]; entry ""; entry "img3.jpg"].

(** A vector. *)
Definition unit_vector : json := JArr [JInt 1; JInt 0].

(** A store in which the second of three lines is cut short. *)
Definition damaged_store : string :=
  store_line (output_record 0 unit_vector "img0")
  +:+ "{" +:+ String newline (store_line (output_record 2 JNull "img2")).

(** What one attempt returns or raises, from what the endpoint does with
    its request. *)
Definition attempt_result (o : post_outcome) : result response :=
  match o with
  | Responds r =>
      if (400 <=? status_code r) && (status_code r <? 600)
      then Raise (HTTPError (status_code r))
      else Ok r
  | Fails e => Raise e
  end.

(** ** More of the cells, and what the properties below speak of *)

(** ** Cell 5: the settings *)

(** [AzureKeyCredential(key)] or [DefaultAzureCredential()]. *)
Inductive Credential : Type :=
| AzureKeyCredential (key : string)
| DefaultAzureCredential.

(** The variables that the cell binds. *)
Record settings : Type := {
  endpoint : string;
  credential : Credential;
  index_name : string;
  vision_key : string;
  vision_endpoint : string;
}.

(** [load_dotenv(override=True)]: the variables of the [.env] file are put
    into the environment, over the ones that are there. *)
Definition load_dotenv (dotenv environ : gmap string string) : gmap string string :=
  dotenv ∪ environ.

(** [os.environ[name]] *)
Definition environ_get (environ : gmap string string) (name : string) : result string :=
  match environ !! name with
  | Some value => Ok value
  | None => Raise (KeyError name)
  end.

Definition and_then {A B} (r : result A) (k : A -> result B) : result B :=
  match r with
  | Ok a => k a
  | Raise e => Raise e
  end.

(** The assignments of the cell, in order.  The conditional expression
    reads the admin key for its test and again for the credential. *)
Definition load_settings (environ : gmap string string) : result settings :=
  and_then (environ_get environ "AZURE_SEARCH_SERVICE_ENDPOINT") (fun endpoint =>
  and_then (environ_get environ "AZURE_SEARCH_ADMIN_KEY") (fun tested =>
  and_then (if (0 <? String.length tested)%nat
            then and_then (environ_get environ "AZURE_SEARCH_ADMIN_KEY")
                   (fun key => Ok (AzureKeyCredential key))
            else Ok DefaultAzureCredential) (fun credential =>
  and_then (environ_get environ "AZURE_SEARCH_INDEX") (fun index_name =>
  and_then (environ_get environ "AZURE_AI_VISION_KEY") (fun vision_key =>
  and_then (environ_get environ "AZURE_AI_VISION_ENDPOINT") (fun vision_endpoint =>
  Ok {| endpoint := endpoint; credential := credential; index_name := index_name;
        vision_key := vision_key; vision_endpoint := vision_endpoint |})))))).

(** The names that the cell reads, in the order in which it reads them. *)
Definition required_variables : list string :=
  ["AZURE_SEARCH_SERVICE_ENDPOINT"; "AZURE_SEARCH_ADMIN_KEY"; "AZURE_SEARCH_INDEX";
   "AZURE_AI_VISION_KEY"; "AZURE_AI_VISION_ENDPOINT"].

(** ** Cell 9 from its first line: the manifest is read, then embedded *)

Section EmbedCell.

Variable remote : list request -> request -> post_outcome.
Variable guess_type : string -> option string.
Variable loads : string -> result json.

(** [json.load(infile)] decodes the text of the file. *)
Definition embed_cell : M unit :=
  infile <- open_read input_json_file ;;
  images <- lift (loads infile) ;;
  embed_images remote guess_type images.

End EmbedCell.

(** What a step of a run may do to the world when it makes at most [n]
    embedding calls: it appends to the store, posts at most fifteen
    requests for every call and sleeps at most fourteen times for every call,
    prints, and leaves every other file and the uploads alone. *)
Definition grows (n : nat) (w w' : world) : Prop :=
  (forall q, q <> output_json_file -> files w' !! q = files w !! q)
  /\ (exists s, store w' = store w +:+ s)
  /\ (is_Some (files w !! output_json_file) -> is_Some (files w' !! output_json_file))
  /\ (exists ps, posted w' = posted w ++ ps /\ (length ps <= max_attempt_number * n)%nat)
  /\ (slept w <= slept w' <= slept w + (max_attempt_number - 1) * n)%nat
  /\ (exists o, stdout w' = stdout w ++ o)
  /\ uploaded w' = uploaded w.

(** ** Values that [json.dumps] and [json.loads] carry back and forth *)

(** The characters of the literal of a finite float. *)
Definition float_char (c : ascii) : bool :=
  is_digit c
  || Ascii.eqb c "-" || Ascii.eqb c "+" || Ascii.eqb c "." || Ascii.eqb c "e"
  || Ascii.eqb c "E".

(** A literal that [json.dumps] prints for a float: [NaN], [Infinity],
    [-Infinity], or a number with a fraction or an exponent that the
    decoder reads as a whole. *)
Definition is_float_literal (l : string) : bool :=
  String.eqb l "NaN" || String.eqb l "Infinity" || String.eqb l "-Infinity"
  || (forallb float_char (list_ascii_of_string l)
      && match scan_number l with
         | Some (JFloat l', EmptyString) => String.eqb l' l
         | _ => false
         end).

Fixpoint distinct (keys : list string) : bool :=
  match keys with
  | [] => true
  | k :: rest => negb (existsb (String.eqb k) rest) && distinct rest
  end.

(** A value as Python holds it: every float has the literal of a float and
    no [dict] has a key twice. *)
Fixpoint clean (v : json) : bool :=
  match v with
  | JFloat l => is_float_literal l
  | JArr xs =>
      (fix all (l : list json) : bool :=
         match l with
         | [] => true
         | x :: l' => clean x && all l'
         end) xs
  | JObj kvs =>
      distinct (map fst kvs)
      && (fix all (l : list (string * json)) : bool :=
            match l with
            | [] => true
            | (_, x) :: l' => clean x && all l'
            end) kvs
  | _ => true
  end.

(** What may follow a value in a text: nothing, a comma, or a closing
    bracket or brace. *)
Definition stops (rest : string) : bool :=
  match rest with
  | EmptyString => true
  | String c _ => Ascii.eqb c "," || Ascii.eqb c "]" || Ascii.eqb c "}"
  end.

(** The stages of [scan_number]: the sign, the integer part, the fraction
    and the exponent, each with the text that it leaves. *)
Definition scan_sign (s : string) : string * string :=
  match s with
  | String c r => if Ascii.eqb c "-" then ("-", r) else ("", s)
  | EmptyString => ("", s)
  end.

Definition scan_integer (digits s2 : string) : string * string :=
  match digits with
  | String d ds => if Ascii.eqb d "0" then ("0", ds +:+ s2) else (digits, s2)
  | EmptyString => ("", s2)
  end.

Definition scan_frac (s3 : string) : string * string :=
  match s3 with
  | String c r =>
      if Ascii.eqb c "." then
        match span_digits r with
        | (EmptyString, _) => ("", s3)
        | (fd, r') => (String c fd, r')
        end
      else ("", s3)
  | EmptyString => ("", s3)
  end.

Definition scan_exp (s4 : string) : string * string :=
  match s4 with
  | String c r =>
      if (Ascii.eqb c "e" || Ascii.eqb c "E")%bool then
        let (esign, r1) :=
          match r with
          | String c' r' =>
              if (Ascii.eqb c' "-" || Ascii.eqb c' "+")%bool
              then (String c' "", r') else ("", r)
          | EmptyString => ("", r)
          end in
        match span_digits r1 with
        | (EmptyString, _) => ("", s4)
        | (ed, r') => (String c (esign +:+ ed), r')
        end
      else ("", s4)
  | EmptyString => ("", s4)
  end.

Definition scan_constant (s : string) : option (json * string) :=
  match strip_prefix "NaN" s, strip_prefix "Infinity" s, strip_prefix "-Infinity" s with
  | Some r, _, _ => Some (JFloat "NaN", r)
  | _, Some r, _ => Some (JFloat "Infinity", r)
  | _, _, Some r => Some (JFloat "-Infinity", r)
  | _, _, _ => None
  end.

(** A character that may follow a value. *)
Definition stop_char (c : ascii) : bool :=
  Ascii.eqb c "," || Ascii.eqb c "]" || Ascii.eqb c "}".

(** A character that [json.dumps] leaves in its output: [' '..'~']. *)
Definition printable (c : ascii) : bool :=
  let n := Z.of_nat (nat_of_ascii c) in (32 <=? n) && (n <=? 126).

Definition all_printable (s : string) : bool :=
  forallb printable (list_ascii_of_string s).

(** The texts of the items of a list and of the members of a [dict], as
    [json_dumps] writes them between the brackets and the braces. *)
Fixpoint dumps_items (l : list json) : string :=
  match l with
  | [] => ""
  | x :: l' => json_dumps x +:+ match l' with [] => "" | _ => ", " +:+ dumps_items l' end
  end.

Fixpoint dumps_members (l : list (string * json)) : string :=
  match l with
  | [] => ""
  | (k, x) :: l' =>
      dumps_str k +:+ ": " +:+ json_dumps x
      +:+ match l' with [] => "" | _ => ", " +:+ dumps_members l' end
  end.

(** The first character of a text is not white space and closes nothing. *)
Definition starts_value (s : string) : bool :=
  match s with
  | String c _ =>
      negb (Ascii.eqb c " " || Ascii.eqb c "009" || Ascii.eqb c newline
            || Ascii.eqb c carriage_return || Ascii.eqb c "]" || Ascii.eqb c "}")
  | EmptyString => false
  end.
(** Induction on a value with the values inside it. *)
Section JsonInduction.

Variable P : json -> Prop.
Hypothesis Hnull : P JNull.
Hypothesis Hbool : forall b, P (JBool b).
Hypothesis Hint : forall z, P (JInt z).
Hypothesis Hfloat : forall l, P (JFloat l).
Hypothesis Hstr : forall s, P (JStr s).
Hypothesis Harr : forall xs, Forall P xs -> P (JArr xs).
Hypothesis Hobj : forall kvs, Forall (fun kv => P (snd kv)) kvs -> P (JObj kvs).

Fixpoint json_nested_ind (v : json) : P v :=
  match v with
  | JNull => Hnull
  | JBool b => Hbool b
  | JInt z => Hint z
  | JFloat l => Hfloat l
  | JStr s => Hstr s
  | JArr xs =>
      Harr xs ((fix go (l : list json) : Forall P l :=
                  match l with
                  | [] => @List.Forall_nil _ P
                  | x :: l' => @List.Forall_cons _ P x l' (json_nested_ind x) (go l')
                  end) xs)
  | JObj kvs =>
      Hobj kvs ((fix go (l : list (string * json)) : Forall (fun kv => P (snd kv)) l :=
                   match l with
                   | [] => @List.Forall_nil _ (fun kv => P (snd kv))
                   | (k, x) :: l' =>
                       @List.Forall_cons _ (fun kv => P (snd kv)) (k, x) l'
                         (json_nested_ind x) (go l')
                   end) kvs)
  end.

End JsonInduction.

(** What the induction gives for the values inside a list or a [dict]. *)
Definition reads_back (v : json) : Prop :=
  clean v = true ->
  forall fuel rest,
    stops rest = true ->
    (String.length (json_dumps v) <= fuel)%nat ->
    scan_once fuel (json_dumps v +:+ rest) = Some (v, rest).

(** An endpoint whose response bodies are values as Python holds them. *)
Definition answers_clean (remote : list request -> request -> post_outcome) : Prop :=
  forall history req r v,
    remote history req = Responds r -> body r = Some v -> clean v = true.

(** A [.env] file that sets the five variables, with an empty admin key,
    and an environment that has an older admin key. *)
Definition sample_dotenv : gmap string string :=
  list_to_map [("AZURE_SEARCH_SERVICE_ENDPOINT", "https://search.example");
               ("AZURE_SEARCH_ADMIN_KEY", "");
               ("AZURE_SEARCH_INDEX", "apples");
               ("AZURE_AI_VISION_KEY", "vision-key");
               ("AZURE_AI_VISION_ENDPOINT", "https://vision.example")].

Definition sample_environ : gmap string string :=
  {[ "AZURE_SEARCH_ADMIN_KEY" := "old-key" ]}.

(** An environment without the index name. *)
Definition partial_environ : gmap string string :=
  list_to_map [("AZURE_SEARCH_SERVICE_ENDPOINT", "https://search.example");
               ("AZURE_SEARCH_ADMIN_KEY", "admin-key");
               ("AZURE_AI_VISION_KEY", "vision-key")].

(** A record with floats in its vector and a quote in its description. *)
Definition sample_record : json :=
  output_record 12 (JArr [JFloat "-0.5"; JFloat "1e-05"; JInt 3])
    (String dquote "two apples").

(** * Properties *)

(** ** The embedding client *)

Section EmbeddingClient.

Variable remote : list request -> request -> post_outcome.
Variable guess_type : string -> option string.


Lemma after_requests_S k s req w :
  after_requests k s req (set_slept (S (slept w)) (set_posted (posted w ++ [req]) w))
  = after_requests (S k) (S s) req w.
Proof.
  unfold after_requests, set_slept, set_posted. simpl.
  rewrite <- app_assoc. simpl. f_equal. lia.
Qed.

Lemma attempt_readable path mt content w :
  files w !! path = Some content ->
  attempt remote path mt w
  = (attempt_result (remote (posted w) {| content_type := mt; data := content |}),
     set_posted (posted w ++ [{| content_type := mt; data := content |}]) w).
Proof.
  intros Hfile. unfold attempt, bind, open_read, requests_post. rewrite Hfile.
  destruct (remote _ _) as [r|e]; simpl; [|done].
  unfold raise_for_status.
  destruct (status_code r =? 200) eqn:E200; simpl.
  - apply Z.eqb_eq in E200. rewrite E200. done.
  - destruct ((400 <=? status_code r) && (status_code r <? 600)); done.
Qed.

Lemma attempt_unreadable path mt w :
  files w !! path = None ->
  attempt remote path mt w = (Raise (OSError path), w).
Proof.
  intros Hfile. unfold attempt, bind, open_read. by rewrite Hfile.
Qed.

(** One turn of the [Retrying] loop. *)
Lemma Retrying_unfold {A} n (body : M A) w :
  Retrying n body w
  = match body w with
    | (Ok a, w') => (Ok a, w')
    | (Raise e, w') =>
        if retry_if_exception_type_HTTPError e then
          match n with
          | O => (Raise (RetryError e), w')
          | S n' => Retrying n' body (set_slept (S (slept w')) w')
          end
        else (Raise e, w')
    end.
Proof.
  destruct n; simpl; unfold try_except; destruct (body w) as [[a|e] w']; try done;
    destruct (retry_if_exception_type_HTTPError e); done.
Qed.




Lemma after_requests_files k s req w : files (after_requests k s req w) = files w.
Proof. done. Qed.


(** Every call makes between one and [attempts_left + 1] requests, and
    sleeps between two of them; nothing else of the world changes. *)
Lemma Retrying_world path mt content : forall n w,
  files w !! path = Some content ->
  exists j, (1 <= j <= S n)%nat
    /\ snd (Retrying n (attempt remote path mt) w)
       = after_requests j (j - 1) {| content_type := mt; data := content |} w.
Proof.
  induction n as [|n IH]; intros w Hfile;
    rewrite Retrying_unfold, (attempt_readable _ _ content) by done;
    destruct (attempt_result _) as [r|e]; simpl;
    try (exists 1%nat; split; [lia|];
         unfold after_requests, set_slept, set_posted; simpl;
         by rewrite Nat.add_0_r).
  - destruct (retry_if_exception_type_HTTPError e); simpl;
      exists 1%nat; (split; [lia|]);
      unfold after_requests, set_slept, set_posted; simpl;
      by rewrite Nat.add_0_r.
  - destruct (retry_if_exception_type_HTTPError e); simpl.
    + destruct (IH (set_slept (S (slept w))
                      (set_posted (posted w ++ [{| content_type := mt; data := content |}]) w))
                   Hfile) as (j & Hj & Hw).
      exists (S j). split; [lia|]. rewrite Hw.
      rewrite after_requests_S. f_equal. lia.
    + exists 1%nat. split; [lia|].
      unfold after_requests, set_slept, set_posted; simpl. by rewrite Nat.add_0_r.
Qed.

(** What follows the loop only reads the response. *)
Lemma vectorize_image_snd path w :
  snd (vectorize_image remote guess_type path w)
  = snd (Retrying (max_attempt_number - 1) (attempt remote path (guess_type path)) w).
Proof.
  unfold vectorize_image, bind.
  destruct (Retrying _ _ w) as [[r|e] w']; [|done].
  unfold response_json. destruct (body r) as [v|]; [|done].
  unfold ret, subscript. destruct v; try done.
  destruct (assoc _ _); done.
Qed.

Lemma vectorize_image_unreadable path w :
  files w !! path = None ->
  vectorize_image remote guess_type path w = (Raise (OSError path), w).
Proof.
  intros Hfile. unfold vectorize_image, bind.
  by rewrite Retrying_unfold, attempt_unreadable.
Qed.

Lemma vectorize_image_world path content w :
  files w !! path = Some content ->
  exists j, (1 <= j <= max_attempt_number)%nat
    /\ snd (vectorize_image remote guess_type path w)
       = after_requests j (j - 1) (request_for guess_type path content) w.
Proof.
  intros Hfile. rewrite vectorize_image_snd.
  destruct (Retrying_world path (guess_type path) content (max_attempt_number - 1) w Hfile)
    as (j & Hj & Hw).
  exists j. split; [unfold max_attempt_number in *; lia|done].
Qed.



End EmbeddingClient.

(** ** Paths *)

Lemma take_drop (s : string) : forall n, Str.take n s +:+ Str.drop n s = s.
Proof.
  induction s as [|c s IH]; intros [|n]; try reflexivity.
  change (String c (Str.take n s +:+ Str.drop n s) = String c s). by rewrite IH.
Qed.



(** [rfind] gives [-1] or the index of an occurrence. *)
Lemma rfind_from_found c (s : string) : forall i last,
  Str.rfind_from c s i last = last
  \/ (i <= Str.rfind_from c s i last
      /\ String.get (Z.to_nat (Str.rfind_from c s i last - i)) s = Some c).
Proof.
  induction s as [|x s IH]; intros i last; [by left|].
  cbn [Str.rfind_from].
  destruct (IH (i + 1) (if Ascii.eqb x c then i else last)) as [->|[Hle Hget]].
  - destruct (Ascii.eqb x c) eqn:E; [|by left].
    right. split; [lia|]. rewrite Z.sub_diag. apply Ascii.eqb_eq in E. by rewrite E.
  - right. split; [lia|].
    set (r := Str.rfind_from c s (i + 1) (if Ascii.eqb x c then i else last)) in *.
    replace (Z.to_nat (r - i)) with (S (Z.to_nat (r - (i + 1)))) by lia. done.
Qed.




(** ** The batch materializer *)

Section BatchMaterializer.

Variable remote : list request -> request -> post_outcome.
Variable guess_type : string -> option string.

Lemma vectorize_image_frame path w :
  files (snd (vectorize_image remote guess_type path w)) = files w
  /\ stdout (snd (vectorize_image remote guess_type path w)) = stdout w
  /\ uploaded (snd (vectorize_image remote guess_type path w)) = uploaded w.
Proof.
  destruct (files w !! path) as [content|] eqn:Hfile.
  - destruct (vectorize_image_world remote guess_type path content w Hfile)
      as (j & _ & ->). done.
  - by rewrite vectorize_image_unreadable.
Qed.

Lemma item_path_Some item p :
  item_path item = Some p ->
  exists kvs, item = JObj kvs /\ assoc "image_path" kvs = Some (JStr p)
              /\ String.eqb p "" = false.
Proof.
  unfold item_path. destruct item as [| | | | |?|kvs]; try done.
  destruct (assoc "image_path" kvs) as [[| | | |s| |]|] eqn:Ha; try done.
  destruct (String.eqb s "") eqn:E; [done|].
  intros [= <-]. by exists kvs.
Qed.

Lemma item_skipped_no_path item : item_skipped item = true -> item_path item = None.
Proof.
  unfold item_skipped, item_path. destruct item as [| | | | |?|kvs]; try done.
  destruct (assoc "image_path" kvs) as [[| | | |s| |]|]; try done.
  simpl. destruct (String.eqb s ""); done.
Qed.

Lemma store_write s w :
  store (snd (write output_json_file s w)) = store w +:+ s.
Proof. unfold store, write. simpl. by rewrite lookup_insert_eq. Qed.

Lemma file_write s w :
  files (snd (write output_json_file s w)) !! output_json_file
  = Some (store (snd (write output_json_file s w))).
Proof. unfold store, write. simpl. by rewrite lookup_insert_eq. Qed.

Lemma string_app_assoc (a b c : string) : (a +:+ b) +:+ c = a +:+ (b +:+ c).
Proof.
  induction a as [|x a IH]; [reflexivity|].
  change (String x ((a +:+ b) +:+ c) = String x (a +:+ (b +:+ c))). congruence.
Qed.

Lemma string_app_nil_r (a : string) : a +:+ "" = a.
Proof.
  induction a as [|x a IH]; [reflexivity|].
  change (String x (a +:+ "") = String x a). congruence.
Qed.

Lemma store_text_app r1 r2 :
  store_text (r1 ++ r2) = store_text r1 +:+ store_text r2.
Proof.
  induction r1 as [|r r1 IH]; [reflexivity|].
  change (store_line r +:+ store_text (r1 ++ r2)
          = (store_line r +:+ store_text r1) +:+ store_text r2).
  by rewrite IH, string_app_assoc.
Qed.

(** An item without a locator leaves the world as it is. *)
Lemma embed_image_skipped idx item w :
  item_skipped item = true ->
  embed_image remote guess_type idx item w = (Ok tt, w).
Proof.
  unfold item_skipped, embed_image, bind, get.
  destruct item as [| | | | |?|kvs]; try done.
  unfold ret. intros H. apply negb_true_iff in H. by rewrite H.
Qed.

(** An item with a locator has its record appended to the store, whatever
    the embedding call did; a failure of the call is printed. *)
Lemma embed_image_embedded idx item p w :
  item_path item = Some p ->
  exists w',
    embed_image remote guess_type idx item w = (Ok tt, w')
    /\ store w' = store w
         +:+ store_line (output_record idx
               (vector_of (fst (vectorize_image remote guess_type (in_apples p) w)))
               (description_of p))
    /\ files w' !! output_json_file = Some (store w')
    /\ stdout w' = stdout w
         ++ report_of idx (fst (vectorize_image remote guess_type (in_apples p) w))
    /\ uploaded w' = uploaded w.
Proof.
  intros Hp. apply item_path_Some in Hp as (kvs & -> & Hassoc & Hne).
  unfold embed_image, bind, get, ret. rewrite Hassoc.
  cbn [from_option id truthy]. rewrite Hne. cbn [negb os_path_join os_path_basename].
  unfold try_except, bind, ret, in_apples.
  pose proof (vectorize_image_frame (PosixPath.join apples_image_directory [p]) w)
    as (Hf & Ho & Hu).
  destruct (vectorize_image remote guess_type _ w) as [[v|e] w1];
    cbn [fst snd vector_of report_of] in *.
  - exists (snd (write output_json_file (String newline "")
              (snd (write output_json_file
                      (json_dumps (output_record idx v (description_of p))) w1)))).
    split; [reflexivity|]. split; [|split; [apply file_write|]].
    + rewrite !store_write.
      unfold store_line, store. by rewrite Hf, string_app_assoc.
    + by rewrite app_nil_r.
  - exists (snd (write output_json_file (String newline "")
              (snd (write output_json_file
                      (json_dumps (output_record idx JNull (description_of p)))
                      (set_stdout (stdout w1 ++ [ErrorProcessing idx e]) w1))))).
    split; [reflexivity|]. split; [|split; [apply file_write|]].
    + rewrite !store_write.
      unfold store_line, store. cbn [files set_stdout].
      by rewrite Hf, string_app_assoc.
    + unfold write. cbn [snd stdout uploaded set_files set_stdout]. by rewrite Ho, Hu.
Qed.

Lemma embed_from_app l1 : forall l2 idx w,
  embed_from remote guess_type idx (l1 ++ l2) w
  = match embed_from remote guess_type idx l1 w with
    | (Ok _, w1) => embed_from remote guess_type (idx + length l1) l2 w1
    | (Raise e, w1) => (Raise e, w1)
    end.
Proof.
  induction l1 as [|item l1 IH]; intros l2 idx w; simpl.
  - unfold ret. by rewrite Nat.add_0_r.
  - unfold bind. destruct (embed_image _ _ idx item w) as [[[]|e] w1]; [|done].
    rewrite IH. by replace (S idx + length l1)%nat with (idx + S (length l1))%nat by lia.
Qed.

Lemma names_image_mono images images' line :
  images.*1 ⊆ images'.*1 -> names_image images line -> names_image images' line.
Proof. intros Hsub (idx & e & -> & Hin). exists idx, e. split; [done|]. by apply Hsub. Qed.

(** The loop over a manifest whose items are dictionaries with a string or
    false [image_path] completes; it appends the records of the run to the
    store and the report of the run to the output. *)
Lemma embed_from_records items : forall idx w,
  Forall well_formed items ->
  exists w',
    embed_from remote guess_type idx items w = (Ok tt, w')
    /\ store w' = store w +:+ store_text (records_from remote guess_type idx items w)
    /\ (files w !! output_json_file = Some (store w) ->
        files w' !! output_json_file = Some (store w'))
    /\ stdout w' = stdout w ++ report_from remote guess_type idx items w
    /\ uploaded w' = uploaded w.
Proof.
  induction items as [|item items IH]; intros idx w Hwf.
  - exists w. cbn [embed_from records_from report_from store_text].
    rewrite string_app_nil_r, app_nil_r. done.
  - apply Forall_cons in Hwf as [Hitem Hwf].
    cbn [embed_from records_from report_from]. unfold bind.
    destruct Hitem as [[p Hp]|Hskip].
    + destruct (embed_image_embedded idx item p w Hp)
        as (w1 & E1 & Hs1 & Hf1 & Ho1 & Hu1).
      rewrite E1, Hp. cbn [snd].
      destruct (IH (S idx) w1 Hwf) as (w' & -> & Hs & Hf & Ho & Hu).
      exists w'. split; [done|]. split; [|split; [|split]].
      * rewrite Hs, Hs1. cbn [store_text]. by rewrite string_app_assoc.
      * intros _. by apply Hf.
      * by rewrite Ho, Ho1, app_assoc.
      * congruence.
    + rewrite (embed_image_skipped idx item w Hskip), (item_skipped_no_path item Hskip).
      cbn [snd]. apply IH. done.
Qed.

(** Every record of a run is the record of an item with a locator, in
    manifest order, and the report names only such items. *)
Lemma records_from_record_of items : forall idx w,
  Forall2 record_of (images_of idx items) (records_from remote guess_type idx items w).
Proof.
  induction items as [|item items IH]; intros idx w; cbn [images_of records_from].
  - constructor.
  - destruct (item_path item); [|apply IH].
    constructor; [by eexists|apply IH].
Qed.

Lemma report_from_names items : forall idx w,
  Forall (names_image (images_of idx items)) (report_from remote guess_type idx items w).
Proof.
  induction items as [|item items IH]; intros idx w; cbn [images_of report_from].
  - constructor.
  - destruct (item_path item) as [p|]; [|apply IH].
    apply Forall_app. split.
    + destruct (fst _); [constructor|]. constructor; [|constructor].
      exists idx, e. split; [done|]. apply list_elem_of_here.
    + eapply Forall_impl; [apply IH|].
      intros line. apply names_image_mono. intros i Hi. by apply list_elem_of_further.
Qed.

(** The records and the report of a manifest in two parts. *)
Lemma records_from_app l1 : forall l2 idx w,
  Forall well_formed l1 ->
  records_from remote guess_type idx (l1 ++ l2) w
  = records_from remote guess_type idx l1 w
    ++ records_from remote guess_type (idx + length l1) l2
         (snd (embed_from remote guess_type idx l1 w))
  /\ report_from remote guess_type idx (l1 ++ l2) w
     = report_from remote guess_type idx l1 w
       ++ report_from remote guess_type (idx + length l1) l2
            (snd (embed_from remote guess_type idx l1 w)).
Proof.
  induction l1 as [|item l1 IH]; intros l2 idx w Hwf.
  - cbn [app records_from report_from embed_from length]. unfold ret. cbn [snd].
    by rewrite Nat.add_0_r.
  - apply Forall_cons in Hwf as [Hitem Hwf].
    cbn [app records_from report_from embed_from length]. unfold bind.
    assert (Hok : exists w1, embed_image remote guess_type idx item w = (Ok tt, w1)).
    { destruct Hitem as [[p Hp]|Hskip].
      - destruct (embed_image_embedded idx item p w Hp) as (w1 & E1 & _). by exists w1.
      - exists w. by apply embed_image_skipped. }
    destruct Hok as [w1 E1]. rewrite E1. cbn [snd].
    destruct (IH l2 (S idx) w1 Hwf) as [-> ->].
    replace (S idx + length l1)%nat with (idx + S (length l1))%nat by lia.
    destruct (item_path item); [|done].
    by rewrite <- app_assoc.
Qed.

End BatchMaterializer.

(** *** The items with a locator *)

Lemma images_of_app l1 : forall l2 idx,
  images_of idx (l1 ++ l2) = images_of idx l1 ++ images_of (idx + length l1) l2.
Proof.
  induction l1 as [|item l1 IH]; intros l2 idx; simpl.
  - by rewrite Nat.add_0_r.
  - rewrite IH. replace (S idx + length l1)%nat with (idx + S (length l1))%nat by lia.
    by destruct (item_path item).
Qed.

Lemma images_of_elem items : forall idx i,
  i ∈ (images_of idx items).*1 ->
  (idx <= i)%nat
  /\ exists item, items !! (i - idx)%nat = Some item /\ is_Some (item_path item).
Proof.
  induction items as [|item items IH]; intros idx i; simpl.
  - by intros ?%elem_of_nil.
  - assert (Hrest : i ∈ (images_of (S idx) items).*1 ->
                    (idx <= i)%nat
                    /\ exists item', (item :: items) !! (i - idx)%nat = Some item'
                                     /\ is_Some (item_path item')).
    { intros Hi. destruct (IH _ _ Hi) as (Hle & item' & Hlook & Hsome).
      split; [lia|]. exists item'. split; [|done].
      replace (i - idx)%nat with (S (i - S idx)) by lia. done. }
    destruct (item_path item) as [p|] eqn:Hp; [|done].
    rewrite fmap_cons. intros [->|Hi]%elem_of_cons; [|by apply Hrest].
    split; [done|]. exists item. rewrite Nat.sub_diag. split; [done|]. by rewrite Hp.
Qed.

Lemma images_of_NoDup items : forall idx, NoDup (images_of idx items).*1.
Proof.
  induction items as [|item items IH]; intros idx; simpl; [constructor|].
  destruct (item_path item); [|apply IH].
  rewrite fmap_cons. constructor; [|apply IH].
  intros Hin. apply images_of_elem in Hin as [Hle _]. simpl in Hle. lia.
Qed.

Lemma images_of_length_le items : forall idx,
  (length (images_of idx items) <= length items)%nat.
Proof.
  induction items as [|item items IH]; intros idx; simpl; [done|].
  specialize (IH (S idx)). destruct (item_path item); simpl; lia.
Qed.

Lemma images_of_length_lt items : forall idx i item,
  items !! i = Some item -> item_path item = None ->
  (length (images_of idx items) < length items)%nat.
Proof.
  induction items as [|item' items IH]; intros idx i item Hlook Hnone; [done|].
  simpl. destruct i as [|i]; simpl in Hlook.
  - injection Hlook as ->. rewrite Hnone.
    pose proof (images_of_length_le items (S idx)). lia.
  - specialize (IH (S idx) i item Hlook Hnone).
    destruct (item_path item'); simpl; lia.
Qed.

Lemma images_of_length_all items : forall idx,
  Forall (fun item => is_Some (item_path item)) items ->
  length (images_of idx items) = length items.
Proof.
  induction items as [|item items IH]; intros idx Hall; [done|].
  apply Forall_cons in Hall as [[p Hp] Hall]. simpl. rewrite Hp. simpl.
  by rewrite IH.
Qed.

(** [f'{idx}'] tells the indices apart. *)
Lemma of_nat_inj a b : Str.of_nat a = Str.of_nat b -> a = b.
Proof.
  unfold Str.of_nat. intros H.
  assert (Hnil : forall n, Nat.to_uint n <> Decimal.Nil).
  { intros n. rewrite <- (Unsigned.of_to n) at 1. rewrite Unsigned.to_of.
    apply DecimalFacts.unorm_nonnil. }
  apply (f_equal NilZero.uint_of_string) in H.
  rewrite !NilZero.usu in H by apply Hnil.
  injection H as H. by apply Unsigned.to_uint_inj.
Qed.

Lemma record_of_id ip record :
  record_of ip record -> record_id record = Some (JStr (Str.of_nat ip.1)).
Proof. by intros (v & ->). Qed.

Lemma records_ids images : forall records,
  Forall2 record_of images records ->
  record_id <$> records = (fun i => Some (JStr (Str.of_nat i))) <$> images.*1.
Proof.
  induction images as [|ip images IH]; intros records Hrec.
  - by apply Forall2_nil_inv_l in Hrec as ->.
  - apply Forall2_cons_inv_l in Hrec as (r & records' & Hr & Hrest & ->).
    rewrite !fmap_cons. by rewrite (record_of_id _ _ Hr), (IH _ Hrest).
Qed.

Lemma id_of_index_inj : Inj eq eq (fun i : nat => Some (JStr (Str.of_nat i))).
Proof. intros a b [= H]. by apply of_nat_inj. Qed.

Lemma skipped_not_image items idx item :
  items !! idx = Some item -> item_skipped item = true ->
  idx ∉ (images_of 0 items).*1.
Proof.
  intros Hlook Hskip Hin. apply images_of_elem in Hin as (_ & item' & Hlook' & Hsome).
  rewrite Nat.sub_0_r, Hlook in Hlook'. injection Hlook' as <-.
  rewrite (item_skipped_no_path item) in Hsome by (apply Hskip). by destruct Hsome.
Qed.

(** *** A whole run *)

Section BatchRun.

Variable remote : list request -> request -> post_outcome.
Variable guess_type : string -> option string.

(** The record of the item of index [i], and what the report says about
    it, in a run of the loop from index [idx]: the record carries the
    vector that the embedding call gave when the loop reached the item,
    and a failure of that call is in the report. *)
Lemma records_from_at items i item p idx w :
  Forall well_formed items ->
  items !! i = Some item ->
  item_path item = Some p ->
  records_from remote guess_type idx items w !! length (images_of idx (take i items))
  = Some (output_record (idx + i)
            (vector_of (fst (vectorize_image remote guess_type (in_apples p)
                               (snd (embed_from remote guess_type idx (take i items) w)))))
            (description_of p))
  /\ (forall e,
        fst (vectorize_image remote guess_type (in_apples p)
               (snd (embed_from remote guess_type idx (take i items) w))) = Raise e ->
        ErrorProcessing (idx + i) e ∈ report_from remote guess_type idx items w).
Proof.
  intros Hwf Hlook Hp.
  pose proof (lookup_lt_Some _ _ _ Hlook) as Hlt.
  assert (Hlen : length (take i items) = i) by (rewrite length_take; lia).
  destruct (records_from_app remote guess_type (take i items) (item :: drop (S i) items)
              idx w) as [Hrec Hrep]; [by apply Forall_take|].
  rewrite (take_drop_middle items i item Hlook), Hlen in Hrec, Hrep.
  rewrite Hrec, Hrep. cbn [records_from report_from]. rewrite Hp.
  split.
  - apply list_lookup_middle.
    apply (Forall2_length _ _ _ (records_from_record_of _ _ _ _ _)).
  - intros e He. rewrite He. cbn [report_of].
    apply elem_of_app. right. apply list_elem_of_here.
Qed.

Lemma store_open_write w :
  store (snd (open_write output_json_file w)) = ""
  /\ files (snd (open_write output_json_file w)) !! output_json_file
     = Some (store (snd (open_write output_json_file w))).
Proof. unfold store, open_write. simpl. by rewrite lookup_insert_eq. Qed.

Lemma embed_images_unfold items w :
  embed_images remote guess_type (JArr items) w
  = match embed_from remote guess_type 0 items (snd (open_write output_json_file w)) with
    | (Ok _, w') => (Ok tt, set_stdout (stdout w' ++ [ResultsSaved output_json_file]) w')
    | (Raise e, w') => (Raise e, w')
    end.
Proof.
  unfold embed_images, bind, iterate, ret, open_write, print. cbn [snd].
  by destruct (embed_from _ _ _ _ _) as [[[]|e] w'].
Qed.

(** A run of the cell over a manifest whose items are dictionaries with a
    string or false [image_path] completes; the store then holds the
    records of the run and nothing else. *)
Lemma embed_images_records items w :
  Forall well_formed items ->
  exists w',
    embed_images remote guess_type (JArr items) w = (Ok tt, w')
    /\ files w' !! output_json_file
       = Some (store_text (records_from remote guess_type 0 items
                             (snd (open_write output_json_file w))))
    /\ stdout w'
       = stdout w ++ report_from remote guess_type 0 items
                       (snd (open_write output_json_file w))
                  ++ [ResultsSaved output_json_file].
Proof.
  intros Hwf. destruct (store_open_write w) as [Hempty Hfile].
  destruct (embed_from_records remote guess_type items 0
              (snd (open_write output_json_file w)) Hwf)
    as (w' & E & Hs & Hf & Ho & _).
  exists (set_stdout (stdout w' ++ [ResultsSaved output_json_file]) w').
  rewrite embed_images_unfold, E. split; [done|]. split.
  - cbn [files set_stdout]. rewrite (Hf Hfile), Hs, Hempty. done.
  - cbn [stdout set_stdout]. rewrite Ho. by rewrite <- app_assoc.
Qed.

(** C1, as the code has it. For every manifest of size [N] whose items all
    have a non-empty [image_path], the run completes and the store holds
    exactly [N] records, the record at place [idx] being the one of the
    item of index [idx], whatever the endpoint does and however many
    embedding calls fail. *)
Theorem one_record_per_image items w :
  Forall (fun item => is_Some (item_path item)) items ->
  exists w' records,
    embed_images remote guess_type (JArr items) w = (Ok tt, w')
    /\ files w' !! output_json_file = Some (store_text records)
    /\ length records = length items
    /\ forall idx item p,
         items !! idx = Some item -> item_path item = Some p ->
         exists v, records !! idx = Some (output_record idx v (description_of p)).
Proof.
  intros Hall.
  assert (Hwf : Forall well_formed items).
  { eapply Forall_impl; [exact Hall|]. intros item H. by left. }
  destruct (embed_images_records items w Hwf) as (w' & E & Hfile & _).
  exists w', (records_from remote guess_type 0 items (snd (open_write output_json_file w))).
  split; [done|]. split; [done|]. split.
  - rewrite <- (Forall2_length _ _ _ (records_from_record_of remote guess_type items 0 _)).
    by apply images_of_length_all.
  - intros idx item p Hlook Hp.
    destruct (records_from_at items idx item p 0 (snd (open_write output_json_file w))
                Hwf Hlook Hp) as [Hat _].
    rewrite images_of_length_all in Hat by (by apply Forall_take).
    rewrite length_take in Hat.
    pose proof (lookup_lt_Some _ _ _ Hlook).
    replace (idx `min` length items)%nat with idx in Hat by lia.
    eexists. exact Hat.
Qed.


(** C9. An item whose [image_path] is missing, null or empty (or any other
    false value) is skipped without a trace: the run completes, the store
    holds a record for exactly the items with a locator, so fewer than [N]
    when an item is skipped; every record keeps the index of its item as
    its id, the ids are pairwise distinct, no record has the index of a
    skipped item as its id, and the report says nothing about a skipped
    item. *)
Theorem items_without_locator_are_skipped items w :
  Forall well_formed items ->
  exists w' records report,
    embed_images remote guess_type (JArr items) w = (Ok tt, w')
    /\ files w' !! output_json_file = Some (store_text records)
    /\ stdout w' = stdout w ++ report ++ [ResultsSaved output_json_file]
    /\ record_id <$> records
       = (fun i => Some (JStr (Str.of_nat i))) <$> (images_of 0 items).*1
    /\ NoDup (record_id <$> records)
    /\ (length records <= length items)%nat
    /\ (forall idx item p,
          items !! idx = Some item -> item_path item = Some p ->
          exists v, output_record idx v (description_of p) ∈ records)
    /\ (forall idx item,
          items !! idx = Some item -> item_skipped item = true ->
          (length records < length items)%nat
          /\ (Some (JStr (Str.of_nat idx)) ∉ (record_id <$> records))
          /\ (forall e, ErrorProcessing idx e ∉ report)).
Proof.
  intros Hwf.
  destruct (embed_images_records items w Hwf) as (w' & E & Hfile & Hout).
  set (w0 := snd (open_write output_json_file w)) in *.
  pose proof (records_from_record_of remote guess_type items 0 w0) as Hrec.
  pose proof (records_ids _ _ Hrec) as Hids.
  exists w', (records_from remote guess_type 0 items w0),
    (report_from remote guess_type 0 items w0).
  split; [done|]. split; [done|]. split; [done|]. split; [done|].
  split; [|split; [|split]].
  - rewrite Hids. apply (@NoDup_fmap_2 _ _ _ id_of_index_inj), images_of_NoDup.
  - rewrite <- (Forall2_length _ _ _ Hrec). apply images_of_length_le.
  - intros idx item p Hlook Hp.
    destruct (records_from_at items idx item p 0 w0 Hwf Hlook Hp) as [Hat _].
    eexists. apply list_elem_of_lookup. eexists. exact Hat.
  - intros idx item Hlook Hskip.
    pose proof (skipped_not_image items idx item Hlook Hskip) as Hnot.
    split; [|split].
    + rewrite <- (Forall2_length _ _ _ Hrec).
      apply (images_of_length_lt items 0 idx item Hlook).
      by apply item_skipped_no_path.
    + rewrite Hids. intros Hin. apply list_elem_of_fmap in Hin as (i & Heq & Hi).
      apply id_of_index_inj in Heq as <-. done.
    + intros e Hin.
      pose proof (report_from_names remote guess_type items 0 w0) as Hnames.
      rewrite Forall_forall in Hnames.
      destruct (Hnames _ Hin) as (i & e' & [= <- <-] & Hi). done.
Qed.

(** C10. The cell opens the store for writing, which truncates it: at the
    start of a run the store is empty, a run does not depend on what the
    store held before, and after a completed run the store holds the
    records of that run and nothing else. *)
Theorem store_is_truncated images w old :
  files (snd (open_write output_json_file
                (set_files (<[output_json_file := old]> (files w)) w)))
    !! output_json_file = Some ""
  /\ embed_images remote guess_type images
       (set_files (<[output_json_file := old]> (files w)) w)
     = embed_images remote guess_type images
         (set_files (delete output_json_file (files w)) w)
  /\ (forall items,
        images = JArr items -> Forall well_formed items ->
        exists w' records,
          embed_images remote guess_type images
            (set_files (<[output_json_file := old]> (files w)) w) = (Ok tt, w')
          /\ files w' !! output_json_file = Some (store_text records)
          /\ Forall2 record_of (images_of 0 items) records).
Proof.
  split; [|split].
  - unfold open_write. cbn [snd files set_files]. by rewrite lookup_insert_eq.
  - unfold embed_images, bind, open_write, set_files. cbn [files].
    by rewrite insert_insert_eq, insert_delete_eq.
  - intros items -> Hwf.
    destruct (embed_images_records items
                (set_files (<[output_json_file := old]> (files w)) w) Hwf)
      as (w' & E & Hfile & _).
    eexists w', _. split; [done|]. split; [done|].
    apply records_from_record_of.
Qed.


End BatchRun.

(** ** The record store loader and the index publisher *)

Section Publisher.

Variable loads : string -> result json.
Variable index_service : list json -> result (list (string * Z)).

(** The loop stops at the first line that does not decode. *)
Lemma load_lines_abort good bad rest e w : forall data,
  Forall (fun line => exists v, loads (Str.strip line) = Ok v) good ->
  loads (Str.strip bad) = Raise e ->
  load_lines loads (good ++ bad :: rest) data w = (Raise e, w).
Proof.
  induction good as [|line good IH]; intros data Hgood Hbad.
  - cbn [app load_lines]. unfold bind, lift. by rewrite Hbad.
  - apply Forall_cons in Hgood as [[v Hv] Hgood].
    cbn [app load_lines]. unfold bind, lift. rewrite Hv. by apply IH.
Qed.

(** When every line decodes, the loop returns the decoded records in the
    order of the lines. *)
Lemma load_lines_all lines : forall records data w,
  Forall2 (fun line v => loads (Str.strip line) = Ok v) lines records ->
  load_lines loads lines data w = (Ok (data ++ records), w).
Proof.
  induction lines as [|line lines IH]; intros records data w Hall.
  - apply Forall2_nil_inv_l in Hall as ->. cbn [load_lines]. by rewrite app_nil_r.
  - apply Forall2_cons_inv_l in Hall as (v & records' & Hv & Hrest & ->).
    cbn [load_lines]. unfold bind, lift. rewrite Hv.
    rewrite (IH records' (data ++ [v]) w Hrest). by rewrite <- app_assoc.
Qed.

Lemma print_results_uploaded results : forall w,
  exists w', print_results results w = (Ok tt, w') /\ uploaded w' = uploaded w.
Proof.
  induction results as [|[key status] results IH]; intros w.
  - by exists w.
  - cbn [print_results]. unfold bind, print.
    destruct (IH (set_stdout (stdout w ++ [Indexed key status]) w)) as (w' & E & Hu).
    exists w'. by rewrite E.
Qed.

(** C7. When a line of the store is malformed, the load aborts at the first
    such line: the cell raises the error of that line, no record is
    returned, nothing is uploaded and nothing is printed. *)
Theorem load_aborts_at_first_malformed_line file good bad rest e w :
  files w !! output_json_file = Some file ->
  readlines (universal_newlines file) = good ++ bad :: rest ->
  Forall (fun line => exists v, loads (Str.strip line) = Ok v) good ->
  loads (Str.strip bad) = Raise e ->
  push_documents loads index_service w = (Raise e, w).
Proof.
  intros Hfile Hlines Hgood Hbad.
  unfold push_documents, bind, open_read. rewrite Hfile, Hlines.
  by rewrite (load_lines_abort good bad rest e w [] Hgood Hbad).
Qed.

(** C8. When every line of the store decodes, the cell uploads the loaded
    records in one call, all of them and in the order of the store; a
    record whose vector is null is uploaded like the others. *)
Theorem publishes_every_record file records w :
  files w !! output_json_file = Some file ->
  Forall2 (fun line v => loads (Str.strip line) = Ok v)
    (readlines (universal_newlines file)) records ->
  uploaded (snd (push_documents loads index_service w)) = uploaded w ++ [records]
  /\ forall record kvs,
       record ∈ records -> record = JObj kvs -> assoc "image_vector" kvs = Some JNull ->
       exists documents,
         last (uploaded (snd (push_documents loads index_service w))) = Some documents
         /\ record ∈ documents
         /\ length documents = length records.
Proof.
  intros Hfile Hall.
  assert (Hup : uploaded (snd (push_documents loads index_service w))
                = uploaded w ++ [records]).
  { unfold push_documents, bind, open_read. rewrite Hfile.
    rewrite (load_lines_all _ records [] w Hall). cbn [app].
    unfold upload_documents. destruct (index_service records) as [results|e]; [|done].
    destruct (print_results_uploaded results (set_uploaded (uploaded w ++ [records]) w))
      as (w' & -> & Hu). done. }
  split; [done|].
  intros record kvs Hin _ _. exists records. rewrite Hup, last_snoc. done.
Qed.

End Publisher.

(** ** The laws at work *)

(** Every entry of a concrete manifest has a locator or is skipped. *)
Ltac check_entries :=
  repeat (constructor;
          [first [ eexists; reflexivity
                 | left; eexists; reflexivity
                 | right; reflexivity ]|]);
  constructor.

(** The library functions on the names of the sample. *)
Example splitext_samples :
  PosixPath.splitext <$> ["a.jpg"; ".hidden"; "red.apple.jpeg"; "dir.d/plain"; "..x"]
  = [("a", ".jpg"); (".hidden", ""); ("red.apple", ".jpeg"); ("dir.d/plain", ""); ("..x", "")].
Proof. reflexivity. Qed.

Example join_sample :
  output_json_file = "../../data/images/apples/output.jsonl"
  /\ in_apples "/tmp/a.jpg" = "/tmp/a.jpg".
Proof. split; reflexivity. Qed.

Example dumps_loads_sample :
  json_loads (json_dumps (output_record 12 (JArr [JFloat "-0.5"; JFloat "1e-05"; JInt 3])
                            (String dquote "two apples")))
  = Ok (output_record 12 (JArr [JFloat "-0.5"; JFloat "1e-05"; JInt 3])
          (String dquote "two apples")).
Proof. reflexivity. Qed.

(** The last attempt that the loop allows still counts: fourteen failures
    and a success give the vector after fifteen requests. *)
Example retry_law_at_the_bound :
  let run := vectorize_image (failing_first 14 429 unit_vector) guess_by_extension
               (in_apples "img0.jpg") (fresh_world five_images) in
  fst run = Ok unit_vector
  /\ length (posted (snd run)) = 15%nat
  /\ slept (snd run) = 14%nat.
Proof. by vm_compute. Qed.

(** A run whose third image is rejected, followed by the upload: the
    record of the rejected image is stored and uploaded with a null
    vector. *)
Example rejected_image_is_stored_and_uploaded :
  let batch := embed_images (rejecting "2" 400 unit_vector) guess_by_extension
                 (JArr five_entries) (fresh_world five_images) in
  let push := push_documents json_loads accepting_service (snd batch) in
  fst batch = Ok tt
  /\ fst push = Ok tt
  /\ uploaded (snd push)
     = [[output_record 0 unit_vector "img0"; output_record 1 unit_vector "img1";
         output_record 2 JNull "img2"; output_record 3 unit_vector "img3";
         output_record 4 unit_vector "img4"]]
  /\ stdout (snd push)
     = [ErrorProcessing 2 (RetryError (HTTPError 400));
        ResultsSaved output_json_file;
        Indexed "0" 201; Indexed "1" 201; Indexed "2" 201; Indexed "3" 201;
        Indexed "4" 201]
  /\ length (posted (snd push)) = 19%nat.
Proof. by vm_compute. Qed.

(** C1 as the specification has it fails: a manifest of one item without an
    [image_path] gives a completed run and an empty store, not one
    record. *)
Lemma item_without_path_leaves_no_record :
  let items := [JObj []] in
  let run := embed_images (always_status 200) guess_by_extension (JArr items)
               (fresh_world ∅) in
  fst run = Ok tt
  /\ files (snd run) !! output_json_file = Some ""
  /\ ~ (exists records,
          files (snd run) !! output_json_file = Some (store_text records)
          /\ length records = length items).
Proof.
  split; [by vm_compute|]. split; [by vm_compute|].
  intros (records & Hfile & Hlen).
  destruct records as [|r [|r' records]]; try discriminate Hlen.
  assert (Hempty : files (embed_images (always_status 200) guess_by_extension
                            (JArr [JObj []]) (fresh_world ∅)).2
                     !! output_json_file = Some "") by (by vm_compute).
  rewrite Hempty in Hfile. injection Hfile as Hfile.
  unfold store_text, store_line in Hfile.
  destruct (json_dumps r); cbv in Hfile; discriminate Hfile.
Qed.

(** Five images and an endpoint that cannot be reached: five records. *)
Lemma one_record_per_image_witness :
  exists w' records,
    embed_images unreachable guess_by_extension (JArr five_entries)
      (fresh_world five_images) = (Ok tt, w')
    /\ files w' !! output_json_file = Some (store_text records)
    /\ length records = 5%nat
    /\ forall idx item p,
         five_entries !! idx = Some item -> item_path item = Some p ->
         exists v, records !! idx = Some (output_record idx v (description_of p)).
Proof.
  apply (one_record_per_image unreachable guess_by_extension five_entries
           (fresh_world five_images)).
  check_entries.
Defined.








(** A store whose second line is cut short. *)
Lemma load_aborts_at_first_malformed_line_witness :
  push_documents json_loads accepting_service
    (fresh_world {[ output_json_file := damaged_store ]})
  = (Raise JSONDecodeError, fresh_world {[ output_json_file := damaged_store ]}).
Proof.
  apply (load_aborts_at_first_malformed_line json_loads accepting_service
           damaged_store
           [store_line (output_record 0 unit_vector "img0")]
           (String "{" (String newline ""))
           [store_line (output_record 2 JNull "img2")]).
  - reflexivity.
  - reflexivity.
  - repeat constructor. eexists. reflexivity.
  - reflexivity.
Defined.

(** A store of two records, the second with a null vector. *)
Lemma publishes_every_record_witness :
  let records := [output_record 0 unit_vector "img0"; output_record 1 JNull "img1"] in
  let w := fresh_world {[ output_json_file := store_text records ]} in
  uploaded (snd (push_documents json_loads accepting_service w)) = [records]
  /\ forall record kvs,
       record ∈ records -> record = JObj kvs -> assoc "image_vector" kvs = Some JNull ->
       exists documents,
         last (uploaded (snd (push_documents json_loads accepting_service w)))
         = Some documents
         /\ record ∈ documents
         /\ length documents = 2%nat.
Proof.
  apply (publishes_every_record json_loads accepting_service
           (store_text [output_record 0 unit_vector "img0"; output_record 1 JNull "img1"])
           [output_record 0 unit_vector "img0"; output_record 1 JNull "img1"]
           (fresh_world {[ output_json_file :=
                             store_text [output_record 0 unit_vector "img0";
                                         output_record 1 JNull "img1"] ]})).
  - reflexivity.
  - repeat constructor.
Defined.

(** Four entries of which only the last names an image: one record, with
    id 3. *)
Lemma items_without_locator_are_skipped_witness :
  exists w' records report,
    embed_images (answering [unit_vector]) guess_by_extension (JArr sparse_entries)
      (fresh_world five_images) = (Ok tt, w')
    /\ files w' !! output_json_file = Some (store_text records)
    /\ stdout w' = report ++ [ResultsSaved output_json_file]
    /\ record_id <$> records = [Some (JStr "3")]
    /\ NoDup (record_id <$> records)
    /\ (length records <= 4)%nat
    /\ (forall idx item p,
          sparse_entries !! idx = Some item -> item_path item = Some p ->
          exists v, output_record idx v (description_of p) ∈ records)
    /\ (forall idx item,
          sparse_entries !! idx = Some item -> item_skipped item = true ->
          (length records < 4)%nat
          /\ (Some (JStr (Str.of_nat idx)) ∉ (record_id <$> records))
          /\ (forall e, ErrorProcessing idx e ∉ report)).
Proof.
  apply (items_without_locator_are_skipped (answering [unit_vector]) guess_by_extension
           sparse_entries (fresh_world five_images)).
  check_entries.
Defined.

(** A run over a store that held a stale line. *)
Lemma store_is_truncated_witness :
  exists w' records,
    embed_images unreachable guess_by_extension (JArr five_entries)
      (set_files (<[output_json_file := "stale"]> five_images)
         (fresh_world five_images)) = (Ok tt, w')
    /\ files w' !! output_json_file = Some (store_text records)
    /\ Forall2 record_of (images_of 0 five_entries) records.
Proof.
  apply (proj2 (proj2 (store_is_truncated unreachable guess_by_extension
                         (JArr five_entries) (fresh_world five_images) "stale"))
           five_entries eq_refl).
  check_entries.
Defined.

(** * More properties *)

(** ** Effects of the embedding client and of a run *)

Lemma grows_refl w : grows 0 w w.
Proof.
  unfold grows. split; [done|]. split; [exists ""; by rewrite string_app_nil_r|].
  split; [done|].
  split; [exists []; by rewrite app_nil_r|]. split; [lia|].
  split; [exists []; by rewrite app_nil_r|done].
Qed.

Lemma grows_trans n m w1 w2 w3 :
  grows n w1 w2 -> grows m w2 w3 -> grows (n + m) w1 w3.
Proof.
  intros (Hf1 & [s1 Hs1] & He1 & (p1 & Hp1 & Hl1) & Hsl1 & [o1 Ho1] & Hu1)
         (Hf2 & [s2 Hs2] & He2 & (p2 & Hp2 & Hl2) & Hsl2 & [o2 Ho2] & Hu2).
  unfold grows. split; [|split; [|split; [|split; [|split; [|split]]]]].
  - intros q Hq. by rewrite Hf2, Hf1.
  - exists (s1 +:+ s2). by rewrite Hs2, Hs1, string_app_assoc.
  - auto.
  - exists (p1 ++ p2). rewrite Hp2, Hp1, <- app_assoc, length_app. split; [done|lia].
  - lia.
  - exists (o1 ++ o2). by rewrite Ho2, Ho1, <- app_assoc.
  - congruence.
Qed.

Lemma grows_mono n m w w' : (n <= m)%nat -> grows n w w' -> grows m w w'.
Proof.
  intros Hle (Hf & Hs & He & (p & Hp & Hl) & Hsl & Ho & Hu).
  unfold grows, max_attempt_number in *. split; [done|]. split; [done|].
  split; [done|].
  split; [exists p; split; [done|nia]|]. split; [nia|done].
Qed.

Lemma grows_print line w : grows 0 w (snd (print line w)).
Proof.
  unfold grows, print, store. cbn. split; [done|].
  split; [exists ""; by rewrite string_app_nil_r|]. split; [done|].
  split; [exists []; by rewrite app_nil_r|]. split; [lia|]. split; [by eexists|done].
Qed.

Lemma grows_write s w : grows 0 w (snd (write output_json_file s w)).
Proof.
  unfold grows. split; [|split; [|split; [|split; [|split; [|split]]]]].
  - intros q Hq. unfold write. cbn. by rewrite lookup_insert_ne.
  - exists s. apply store_write.
  - intros _. rewrite file_write. by eexists.
  - exists []. by rewrite app_nil_r.
  - unfold write. cbn. lia.
  - exists []. unfold write. cbn. by rewrite app_nil_r.
  - done.
Qed.

Section Grows.
Variable remote : list request -> request -> post_outcome.
Variable guess_type : string -> option string.

Lemma grows_vectorize_image path w :
  grows 1 w (snd (vectorize_image remote guess_type path w)).
Proof.
  destruct (files w !! path) as [content|] eqn:Hfile.
  - destruct (vectorize_image_world remote guess_type path content w Hfile)
      as (j & Hj & ->).
    unfold grows, after_requests, store, max_attempt_number in *. cbn.
    split; [done|]. split; [exists ""; by rewrite string_app_nil_r|].
    split; [done|].
    split; [eexists; split; [done|]; rewrite length_replicate; lia|].
    split; [lia|]. split; [exists []; by rewrite app_nil_r|done].
  - rewrite vectorize_image_unreadable by done. cbn.
    apply (grows_mono 0); [lia|apply grows_refl].
Qed.

(** One turn of the loop, whatever the item is. *)
Lemma grows_embed_image idx item w :
  grows 1 w (snd (embed_image remote guess_type idx item w)).
Proof.
  unfold embed_image, bind, get.
  destruct item as [| | | | | |kvs]; try (apply (grows_mono 0); [lia|apply grows_refl]).
  unfold ret. destruct (truthy _); [|apply (grows_mono 0); [lia|apply grows_refl]].
  unfold try_except, bind.
  set (image_path := default JNull (assoc "image_path" kvs)).
  assert (Hvec : exists r w1,
            (let (r0, w'0) := os_path_join apples_image_directory image_path w in
             match r0 with
             | Ok a => vectorize_image remote guess_type a w'0
             | Raise e => (Raise e, w'0)
             end) = (r, w1) /\ grows 1 w w1).
  { unfold os_path_join, ret, raise.
    destruct image_path; try (eexists _, w; split; [done|];
                              apply (grows_mono 0); [lia|apply grows_refl]).
    pose proof (grows_vectorize_image (PosixPath.join apples_image_directory [s]) w).
    destruct (vectorize_image _ _ _ w) as [r w1]. by exists r, w1. }
  destruct Hvec as (r & w1 & -> & Hg1).
  assert (Hhandled : exists v w2,
            match r with
            | Ok a => (Ok a, w1)
            | Raise e =>
                (let (r0, w'0) := print (ErrorProcessing idx e) w1 in
                 match r0 with
                 | Ok _ => (Ok JNull, w'0)
                 | Raise e0 => (Raise e0, w'0)
                 end)
            end = (Ok v, w2) /\ grows 1 w w2).
  { destruct r as [v|e].
    - by exists v, w1.
    - eexists JNull, _. split; [reflexivity|].
      apply (grows_trans 1 0 w w1); [done|apply grows_print]. }
  destruct Hhandled as (v & w2 & -> & Hg2).
  unfold os_path_basename, ret, raise. destruct image_path; try done.
  cbn [snd]. unfold bind.
  change (grows 1 w (snd (write output_json_file (String newline "")
                       (snd (write output_json_file
                          (json_dumps (output_record idx v
                             (fst (PosixPath.splitext (PosixPath.basename s))))) w2))))).
  apply (grows_trans 1 0 w w2); [done|].
  apply (grows_trans 0 0 w2 _ _ (grows_write _ _) (grows_write _ _)).
Qed.

Lemma grows_embed_from items : forall idx w,
  grows (length items) w (snd (embed_from remote guess_type idx items w)).
Proof.
  induction items as [|item items IH]; intros idx w; cbn [embed_from length].
  - apply grows_refl.
  - unfold bind. pose proof (grows_embed_image idx item w) as Hstep.
    destruct (embed_image _ _ idx item w) as [[[]|e] w1]; cbn [snd] in *.
    + apply (grows_trans 1 (length items) w w1); [done|apply IH].
    + apply (grows_mono 1); [lia|done].
Qed.

End Grows.

Section Edges.
Variable remote : list request -> request -> post_outcome.
Variable guess_type : string -> option string.

(** X1. What a call of [vectorize_image] does to the world: for a file that
    cannot be read it raises [OSError] and changes nothing; for a readable
    file it posts the same request between 1 and 15 times and sleeps once
    between two requests; it never touches the files, the output or the
    uploads. *)
Theorem vectorize_image_effects path w :
  (files w !! path = None ->
   vectorize_image remote guess_type path w = (Raise (OSError path), w))
  /\ (forall content, files w !! path = Some content ->
      exists j, (1 <= j <= max_attempt_number)%nat
        /\ posted (snd (vectorize_image remote guess_type path w))
           = posted w ++ replicate j (request_for guess_type path content)
        /\ slept (snd (vectorize_image remote guess_type path w))
           = (slept w + (j - 1))%nat)
  /\ files (snd (vectorize_image remote guess_type path w)) = files w
  /\ stdout (snd (vectorize_image remote guess_type path w)) = stdout w
  /\ uploaded (snd (vectorize_image remote guess_type path w)) = uploaded w.
Proof.
  split; [apply vectorize_image_unreadable|]. split.
  - intros content Hfile.
    destruct (vectorize_image_world remote guess_type path content w Hfile)
      as (j & Hj & ->).
    by exists j.
  - apply vectorize_image_frame.
Qed.

Lemma grows_embed_from_images items : forall idx w,
  Forall well_formed items ->
  grows (length (images_of idx items)) w (snd (embed_from remote guess_type idx items w)).
Proof.
  induction items as [|item items IH]; intros idx w Hwf; cbn [embed_from images_of].
  - apply grows_refl.
  - apply Forall_cons in Hwf as [Hitem Hwf]. unfold bind.
    destruct Hitem as [[p Hp]|Hskip].
    + rewrite Hp. pose proof (grows_embed_image remote guess_type idx item w) as Hstep.
      destruct (embed_image _ _ idx item w) as [[[]|e] w1]; cbn [snd length] in *.
      * apply (grows_trans 1 _ w w1); [done|by apply IH].
      * apply (grows_mono 1); [lia|done].
    + rewrite (embed_image_skipped _ _ idx item w Hskip),
        (item_skipped_no_path item Hskip). by apply IH.
Qed.

Lemma embed_images_world items w :
  snd (embed_images remote guess_type (JArr items) w)
  = match embed_from remote guess_type 0 items (snd (open_write output_json_file w)) with
    | (Ok _, w') => set_stdout (stdout w' ++ [ResultsSaved output_json_file]) w'
    | (Raise _, w') => w'
    end.
Proof.
  rewrite embed_images_unfold. by destruct (embed_from _ _ _ _ _) as [[[]|e] w'].
Qed.

Lemma grows_embed_images images w :
  grows match images with
        | JArr xs => length xs
        | JObj kvs => length kvs
        | JStr s => String.length s
        | _ => 0
        end (snd (open_write output_json_file w))
    (snd (embed_images remote guess_type images w)).
Proof.
  assert (Hloop : forall items,
            grows (length items) (snd (open_write output_json_file w))
              (snd ((embed_from remote guess_type 0 items ;; print (ResultsSaved output_json_file))
                      (snd (open_write output_json_file w))))).
  { intros items. unfold bind.
    pose proof (grows_embed_from remote guess_type items 0
                  (snd (open_write output_json_file w))) as Hg.
    destruct (embed_from _ _ _ _ _) as [[[]|e] w1]; cbn [snd] in *; [|done].
    rewrite <- (Nat.add_0_r (length items)).
    apply (grows_trans _ 0 _ w1); [done|apply grows_print]. }
  unfold embed_images. unfold bind at 1. unfold open_write at 1.
  destruct images as [| | | |s|xs|kvs]; try apply grows_refl.
  - specialize (Hloop (map (fun c => JStr (String c "")) (list_ascii_of_string s))).
    rewrite length_map in Hloop.
    replace (length (list_ascii_of_string s)) with (String.length s) in Hloop
      by (clear; induction s as [|c s IH]; cbn; [done|by rewrite IH]).
    exact Hloop.
  - apply Hloop.
  - specialize (Hloop (map (fun kv => JStr (fst kv)) kvs)).
    by rewrite length_map in Hloop.
Qed.

(** X3. Whatever the manifest holds, a run of the embedding cell changes no
    file but the store, leaves a store behind, uploads nothing, and only
    adds to the output and to the requests. *)
Theorem run_touches_only_the_store images w :
  (forall q, q <> output_json_file ->
     files (snd (embed_images remote guess_type images w)) !! q = files w !! q)
  /\ is_Some (files (snd (embed_images remote guess_type images w)) !! output_json_file)
  /\ uploaded (snd (embed_images remote guess_type images w)) = uploaded w
  /\ (exists lines, stdout (snd (embed_images remote guess_type images w))
                    = stdout w ++ lines)
  /\ (exists requests, posted (snd (embed_images remote guess_type images w))
                       = posted w ++ requests).
Proof.
  destruct (grows_embed_images images w)
    as (Hf & _ & He & (ps & Hp & _) & _ & Ho & Hu).
  split; [|split; [|split; [|split]]].
  - intros q Hq. rewrite (Hf q Hq). unfold open_write. cbn. by rewrite lookup_insert_ne.
  - apply He. unfold open_write. cbn. rewrite lookup_insert_eq. by eexists.
  - done.
  - done.
  - by exists ps.
Qed.

Lemma store_grows_after_prefix l1 l2 w :
  exists later,
    store (snd (embed_images remote guess_type (JArr (l1 ++ l2)) w))
    = store (snd (embed_from remote guess_type 0 l1 (snd (open_write output_json_file w))))
      +:+ later.
Proof.
  rewrite embed_images_world, embed_from_app.
  destruct (embed_from remote guess_type 0 l1 _) as [[[]|e] w1]; cbn [snd].
  - destruct (grows_embed_from remote guess_type l2 (0 + length l1) w1)
      as (_ & [s Hs] & _).
    exists s. by destruct (embed_from _ _ _ _ w1) as [[[]|e] w2].
  - exists "". by rewrite string_app_nil_r.
Qed.

(** X4. The store is append-only within a run: what the store holds when
    the run reaches item [i] is a prefix of the store at the end of the
    run. *)
Theorem store_only_grows_within_a_run items i w :
  exists later,
    store (snd (embed_images remote guess_type (JArr items) w))
    = store (world_at remote guess_type i items w) +:+ later.
Proof.
  pose proof (store_grows_after_prefix (take i items) (drop i items) w) as H.
  by rewrite list.take_drop in H.
Qed.

(** X5. A run posts at most 15 requests and sleeps at most 14 times for
    every item of the manifest; over a well-formed manifest the bounds hold
    with the number of the items that name an image. *)
Theorem requests_of_a_run_are_bounded items w :
  (length (posted (snd (embed_images remote guess_type (JArr items) w)))
   <= length (posted w) + max_attempt_number * length items)%nat
  /\ (slept (snd (embed_images remote guess_type (JArr items) w))
      <= slept w + (max_attempt_number - 1) * length items)%nat
  /\ (Forall well_formed items ->
      (length (posted (snd (embed_images remote guess_type (JArr items) w)))
       <= length (posted w) + max_attempt_number * length (images_of 0 items))%nat
      /\ (slept (snd (embed_images remote guess_type (JArr items) w))
          <= slept w + (max_attempt_number - 1) * length (images_of 0 items))%nat).
Proof.
  split; [|split].
  - destruct (grows_embed_images (JArr items) w) as (_ & _ & _ & (ps & Hp & Hl) & _).
    change (posted (snd (open_write output_json_file w))) with (posted w) in Hp.
    rewrite Hp, length_app. lia.
  - destruct (grows_embed_images (JArr items) w) as (_ & _ & _ & _ & Hs & _).
    change (slept (snd (open_write output_json_file w))) with (slept w) in Hs. lia.
  - intros Hwf. rewrite embed_images_world.
    destruct (grows_embed_from_images items 0 (snd (open_write output_json_file w)) Hwf)
      as (_ & _ & _ & (ps & Hp & Hl) & Hs & _).
    change (posted (snd (open_write output_json_file w))) with (posted w) in Hp.
    change (slept (snd (open_write output_json_file w))) with (slept w) in Hs.
    destruct (embed_from _ _ _ _ _) as [[[]|e] w1]; cbn [snd posted slept set_stdout] in *;
      rewrite Hp, length_app; lia.
Qed.

(** X6. A manifest that is not a list: an empty [dict] or string gives a
    run without records; any other [dict] or string raises
    [AttributeError] at its first key or character; a number, a boolean or
    [null] raises [TypeError].  In every case the store has been emptied
    and no request is posted. *)
Theorem manifest_that_is_not_a_list images w :
  (forall xs, images <> JArr xs) ->
  fst (embed_images remote guess_type images w)
  = match images with
    | JObj [] | JStr EmptyString => Ok tt
    | JObj _ | JStr _ => Raise AttributeError
    | _ => Raise TypeError
    end
  /\ files (snd (embed_images remote guess_type images w)) !! output_json_file = Some ""
  /\ posted (snd (embed_images remote guess_type images w)) = posted w.
Proof.
  intros Hnot.
  assert (Hfile : files (snd (open_write output_json_file w)) !! output_json_file = Some "").
  { unfold open_write. cbn. by rewrite lookup_insert_eq. }
  assert (Hworld : snd (embed_images remote guess_type images w)
                   = snd (open_write output_json_file w)
                   \/ snd (embed_images remote guess_type images w)
                      = snd (print (ResultsSaved output_json_file)
                               (snd (open_write output_json_file w)))).
  { destruct images as [| | | |s|xs|kvs]; try (by left).
    - destruct s; [by right|by left].
    - by destruct (Hnot xs).
    - destruct kvs as [|[k v] kvs]; [by right|by left]. }
  split.
  - destruct images as [| | | |s|xs|kvs]; try done.
    + by destruct s.
    + by destruct (Hnot xs).
    + by destruct kvs as [|[k v] kvs].
  - by destruct Hworld as [-> | ->].
Qed.

(** X7. An item that is not a [dict] aborts the run with
    [AttributeError]: the records and the report of the items before it
    stay, nothing is written or printed for it or for the items after
    it. *)
Theorem item_that_is_not_a_dict_aborts pre bad post w :
  Forall well_formed pre ->
  (forall kvs, bad <> JObj kvs) ->
  embed_images remote guess_type (JArr (pre ++ bad :: post)) w
  = (Raise AttributeError,
     snd (embed_from remote guess_type 0 pre (snd (open_write output_json_file w))))
  /\ files (snd (embed_images remote guess_type (JArr (pre ++ bad :: post)) w))
       !! output_json_file
     = Some (store_text (records_from remote guess_type 0 pre
                           (snd (open_write output_json_file w))))
  /\ stdout (snd (embed_images remote guess_type (JArr (pre ++ bad :: post)) w))
     = stdout w ++ report_from remote guess_type 0 pre
                     (snd (open_write output_json_file w)).
Proof.
  intros Hwf Hbad.
  destruct (embed_from_records remote guess_type pre 0
              (snd (open_write output_json_file w)) Hwf)
    as (w1 & E & Hs & Hf & Ho & _).
  destruct (store_open_write w) as [Hempty Hfile].
  assert (Hrun : embed_images remote guess_type (JArr (pre ++ bad :: post)) w
                 = (Raise AttributeError, w1)).
  { rewrite embed_images_unfold, embed_from_app, E. cbn [embed_from]. unfold bind.
    unfold embed_image, bind, get. destruct bad; try done. by destruct (Hbad kvs). }
  rewrite Hrun, E. cbn [snd]. split; [done|]. split.
  - by rewrite (Hf Hfile), Hs, Hempty.
  - done.
Qed.

(** X8. An [image_path] that is true but not a string aborts the run with
    [TypeError]: the error of the join is caught and reported for the
    item, the one of [os.path.basename] is not, and no record is written
    for the item or for the items after it. *)
Theorem image_path_that_is_not_a_string_aborts pre kvs v post w :
  Forall well_formed pre ->
  assoc "image_path" kvs = Some v ->
  truthy v = true ->
  (forall s, v <> JStr s) ->
  embed_images remote guess_type (JArr (pre ++ JObj kvs :: post)) w
  = (Raise TypeError,
     snd (print (ErrorProcessing (length pre) TypeError)
            (snd (embed_from remote guess_type 0 pre
                    (snd (open_write output_json_file w))))))
  /\ files (snd (embed_images remote guess_type (JArr (pre ++ JObj kvs :: post)) w))
       !! output_json_file
     = Some (store_text (records_from remote guess_type 0 pre
                           (snd (open_write output_json_file w))))
  /\ stdout (snd (embed_images remote guess_type (JArr (pre ++ JObj kvs :: post)) w))
     = stdout w ++ report_from remote guess_type 0 pre
                     (snd (open_write output_json_file w))
                ++ [ErrorProcessing (length pre) TypeError].
Proof.
  intros Hwf Hassoc Htruthy Hnot.
  destruct (embed_from_records remote guess_type pre 0
              (snd (open_write output_json_file w)) Hwf)
    as (w1 & E & Hs & Hf & Ho & _).
  destruct (store_open_write w) as [Hempty Hfile].
  assert (Hrun : embed_images remote guess_type (JArr (pre ++ JObj kvs :: post)) w
                 = (Raise TypeError, snd (print (ErrorProcessing (length pre) TypeError) w1))).
  { rewrite embed_images_unfold, embed_from_app, E. cbn [embed_from]. unfold bind.
    unfold embed_image, bind, get, ret. rewrite Hassoc. cbn [from_option id].
    rewrite Htruthy. unfold try_except, bind.
    destruct v; try done. by destruct (Hnot s). }
  rewrite Hrun, E. cbn [snd]. split; [done|]. split.
  - unfold print. cbn [snd files set_stdout]. by rewrite (Hf Hfile), Hs, Hempty.
  - unfold print. cbn [snd stdout set_stdout]. by rewrite Ho, <- app_assoc.
Qed.

End Edges.

(** ** The cells around the loops *)

(** X11. The settings: a variable of the [.env] file wins over the
    environment, and the cell completes exactly when the five variables
    are set; the credential is the default one when the admin key is
    empty and the key credential otherwise. *)
Theorem settings_of_the_environment dotenv environ :
  (forall name, load_dotenv dotenv environ !! name
                = match dotenv !! name with
                  | Some value => Some value
                  | None => environ !! name
                  end)
  /\ (forall cfg,
        load_settings (load_dotenv dotenv environ) = Ok cfg <->
        exists key,
          load_dotenv dotenv environ !! "AZURE_SEARCH_SERVICE_ENDPOINT" = Some (endpoint cfg)
          /\ load_dotenv dotenv environ !! "AZURE_SEARCH_ADMIN_KEY" = Some key
          /\ credential cfg = (if String.eqb key "" then DefaultAzureCredential
                               else AzureKeyCredential key)
          /\ load_dotenv dotenv environ !! "AZURE_SEARCH_INDEX" = Some (index_name cfg)
          /\ load_dotenv dotenv environ !! "AZURE_AI_VISION_KEY" = Some (vision_key cfg)
          /\ load_dotenv dotenv environ !! "AZURE_AI_VISION_ENDPOINT"
             = Some (vision_endpoint cfg)).
Proof.
  split.
  - intros name. unfold load_dotenv. rewrite lookup_union.
    destruct (dotenv !! name), (environ !! name); done.
  - intros cfg. generalize (load_dotenv dotenv environ). intros env.
    unfold load_settings, and_then, environ_get. split.
    + destruct (env !! "AZURE_SEARCH_SERVICE_ENDPOINT") as [e|]; [|done].
      destruct (env !! "AZURE_SEARCH_ADMIN_KEY") as [k|]; [|done].
      destruct (env !! "AZURE_SEARCH_INDEX") as [i|];
        [|by destruct (0 <? String.length k)%nat].
      destruct (env !! "AZURE_AI_VISION_KEY") as [vk|];
        [|by destruct (0 <? String.length k)%nat].
      destruct (env !! "AZURE_AI_VISION_ENDPOINT") as [ve|];
        [|by destruct (0 <? String.length k)%nat].
      destruct k as [|c k]; cbn; intros [= <-]; by eexists.
    + intros (k & -> & -> & Hc & -> & -> & ->). destruct cfg as [e c i vk ve].
      cbn in *. subst c. by destruct k.
Qed.

(** X12. When a variable is missing, the cell raises [KeyError] for the
    first missing one in the order in which the cell reads them. *)
Theorem first_missing_variable_is_reported environ before name after :
  required_variables = before ++ name :: after ->
  (forall n, n ∈ before -> is_Some (environ !! n)) ->
  environ !! name = None ->
  load_settings environ = Raise (KeyError name).
Proof.
  intros Hsplit Hbefore Hmissing.
  assert (Hget : forall n, n ∈ before -> exists v, environ !! n = Some v).
  { intros n Hn. destruct (Hbefore n Hn) as [v Hv]. by exists v. }
  unfold required_variables in Hsplit. unfold load_settings, and_then, environ_get.
  destruct before as [|a [|b [|c [|d [|e before]]]]]; cbn in Hsplit.
  - injection Hsplit as <- _. by rewrite Hmissing.
  - injection Hsplit as <- <- _.
    destruct (Hget _ (list_elem_of_here _ _)) as [v ->]. by rewrite Hmissing.
  - injection Hsplit as <- <- <- _.
    destruct (Hget "AZURE_SEARCH_SERVICE_ENDPOINT") as [v ->]; [set_solver|].
    destruct (Hget "AZURE_SEARCH_ADMIN_KEY") as [k ->]; [set_solver|].
    rewrite Hmissing. by destruct (0 <? String.length k)%nat.
  - injection Hsplit as <- <- <- <- _.
    destruct (Hget "AZURE_SEARCH_SERVICE_ENDPOINT") as [v ->]; [set_solver|].
    destruct (Hget "AZURE_SEARCH_ADMIN_KEY") as [k ->]; [set_solver|].
    destruct (Hget "AZURE_SEARCH_INDEX") as [i ->]; [set_solver|].
    rewrite Hmissing. by destruct (0 <? String.length k)%nat.
  - injection Hsplit as <- <- <- <- <- _.
    destruct (Hget "AZURE_SEARCH_SERVICE_ENDPOINT") as [v ->]; [set_solver|].
    destruct (Hget "AZURE_SEARCH_ADMIN_KEY") as [k ->]; [set_solver|].
    destruct (Hget "AZURE_SEARCH_INDEX") as [i ->]; [set_solver|].
    destruct (Hget "AZURE_AI_VISION_KEY") as [vk ->]; [set_solver|].
    rewrite Hmissing. by destruct (0 <? String.length k)%nat.
  - injection Hsplit as _ _ _ _ _ Hrest. by destruct before.
Qed.

(** ** The loader with the decoder of the standard library *)

Lemma json_loads_raises s e : json_loads s = Raise e -> e = JSONDecodeError.
Proof.
  unfold json_loads. destruct (scan_once _ _) as [[v r]|]; [|congruence].
  destruct (skip_ws r); congruence.
Qed.

Lemma load_lines_undecodable lines : forall data w line,
  line ∈ lines ->
  (forall v, json_loads (Str.strip line) <> Ok v) ->
  load_lines json_loads lines data w = (Raise JSONDecodeError, w).
Proof.
  induction lines as [|l lines IH]; intros data w line Hin Hbad.
  - by apply elem_of_nil in Hin.
  - cbn [load_lines]. unfold bind, lift.
    destruct (json_loads (Str.strip l)) as [v|e] eqn:El.
    + apply elem_of_cons in Hin as [->|Hin]; [by destruct (Hbad v)|].
      by apply (IH _ _ line).
    + by rewrite (json_loads_raises _ _ El).
Qed.

Lemma lstrip_blank line :
  forallb Str.isspace (list_ascii_of_string line) = true -> Str.lstrip line = "".
Proof.
  induction line as [|c line IH]; [done|]. cbn [list_ascii_of_string forallb Str.lstrip].
  intros [Hc Hrest]%andb_true_iff. rewrite Hc. by apply IH.
Qed.

(** X13. A line of the store that holds white space only makes the
    publishing cell raise [JSONDecodeError]; nothing is uploaded and
    nothing is printed. *)
Theorem blank_line_aborts_the_load svc file line w :
  files w !! output_json_file = Some file ->
  line ∈ readlines (universal_newlines file) ->
  forallb Str.isspace (list_ascii_of_string line) = true ->
  push_documents json_loads svc w = (Raise JSONDecodeError, w).
Proof.
  intros Hfile Hin Hblank.
  unfold push_documents, bind, open_read. rewrite Hfile.
  rewrite (load_lines_undecodable _ [] w line Hin); [done|].
  unfold Str.strip. rewrite (lstrip_blank line Hblank). done.
Qed.

Section Publishing.

Variable loads : string -> result json.
Variable index_service : list json -> result (list (string * Z)).

Lemma print_results_world results : forall w,
  print_results results w
  = (Ok tt, set_stdout (stdout w ++ map (fun r => Indexed (fst r) (snd r)) results) w).
Proof.
  induction results as [|[key status] results IH]; intros w; cbn [print_results map].
  - destruct w. unfold ret, set_stdout. cbn. by rewrite app_nil_r.
  - unfold bind, print. rewrite IH. unfold set_stdout. cbn. by rewrite <- app_assoc.
Qed.

(** X14. When every line of the store decodes, the outcome of the
    publishing cell is the one of its single upload: one [Indexed] line
    per result of the service, in order, or the error of the service and
    no output. *)
Theorem push_reports_what_the_service_answers file records w :
  files w !! output_json_file = Some file ->
  Forall2 (fun line v => loads (Str.strip line) = Ok v)
    (readlines (universal_newlines file)) records ->
  push_documents loads index_service w
  = match index_service records with
    | Ok results =>
        (Ok tt,
         set_stdout (stdout w ++ map (fun r => Indexed (fst r) (snd r)) results)
           (set_uploaded (uploaded w ++ [records]) w))
    | Raise e => (Raise e, set_uploaded (uploaded w ++ [records]) w)
    end.
Proof.
  intros Hfile Hall. unfold push_documents, bind, open_read. rewrite Hfile.
  rewrite (load_lines_all loads _ records [] w Hall). cbn [app].
  unfold upload_documents. destruct (index_service records) as [results|e]; [|done].
  by rewrite print_results_world.
Qed.

End Publishing.

Section EmbedCellFacts.

Variable remote : list request -> request -> post_outcome.
Variable guess_type : string -> option string.
Variable loads : string -> result json.

(** X9. When the manifest is missing or does not decode, the embedding
    cell raises before it opens the store, which keeps its content;
    otherwise the cell is the run over the decoded manifest, and the
    manifest file is left as it was. *)
Theorem unreadable_manifest_keeps_the_store w :
  (files w !! input_json_file = None ->
   embed_cell remote guess_type loads w = (Raise (OSError input_json_file), w))
  /\ (forall text e,
        files w !! input_json_file = Some text -> loads text = Raise e ->
        embed_cell remote guess_type loads w = (Raise e, w))
  /\ (forall text images,
        files w !! input_json_file = Some text -> loads text = Ok images ->
        embed_cell remote guess_type loads w = embed_images remote guess_type images w
        /\ files (snd (embed_cell remote guess_type loads w)) !! input_json_file
           = Some text).
Proof.
  unfold embed_cell, bind, open_read, lift. split; [|split].
  - by intros ->.
  - by intros text e -> ->.
  - intros text images Hfile Hload. rewrite Hfile, Hload. split; [done|].
    destruct (grows_embed_images remote guess_type images w) as [Hf _].
    rewrite Hf by (by vm_compute). unfold open_write. cbn [snd files set_files].
    rewrite lookup_insert_ne by (by vm_compute). done.
Qed.

End EmbedCellFacts.

(** ** Paths, continued *)

Lemma rfind_from_absent c (s : string) : forall i last,
  (forall j, String.get j s <> Some c) -> Str.rfind_from c s i last = last.
Proof.
  induction s as [|x s IH]; intros i last Habs; [done|]. cbn [Str.rfind_from].
  destruct (Ascii.eqb x c) eqn:E.
  - apply Ascii.eqb_eq in E. subst. by destruct (Habs O).
  - apply IH. intros j. apply (Habs (S j)).
Qed.

Lemma rfind_from_app c (a b : string) : forall i last,
  Str.rfind_from c (a +:+ b) i last
  = Str.rfind_from c b (i + Z.of_nat (String.length a)) (Str.rfind_from c a i last).
Proof.
  induction a as [|x a IH]; intros i last.
  - cbn. by rewrite Z.add_0_r.
  - change (String x a +:+ b) with (String x (a +:+ b)). cbn [Str.rfind_from String.length].
    rewrite IH. f_equal. lia.
Qed.

Lemma str_drop_app_length (a b : string) : Str.drop (String.length a) (a +:+ b) = b.
Proof. induction a as [|x a IH]; [done|]. exact IH. Qed.

Lemma str_take_app_length (a b : string) : Str.take (String.length a) (a +:+ b) = a.
Proof.
  induction a as [|x a IH]; [by destruct b|].
  change (String x (Str.take (String.length a) (a +:+ b)) = String x a). by rewrite IH.
Qed.

Lemma rfind_absent c (s : string) :
  (forall j, String.get j s <> Some c) -> Str.rfind c s = -1.
Proof. apply rfind_from_absent. Qed.

Lemma rfind_last_occurrence c (a b : string) :
  (forall j, String.get j b <> Some c) ->
  Str.rfind c (a +:+ String c b) = Z.of_nat (String.length a).
Proof.
  intros Hb. unfold Str.rfind. rewrite rfind_from_app. cbn [Str.rfind_from].
  rewrite Ascii.eqb_refl. by rewrite rfind_from_absent.
Qed.

Lemma get_app_absent c (a b : string) :
  (forall j, String.get j a <> Some c) -> (forall j, String.get j b <> Some c) ->
  forall j, String.get j (a +:+ b) <> Some c.
Proof.
  revert b. induction a as [|x a IH]; intros b Ha Hb j; [apply Hb|].
  change (String x a +:+ b) with (String x (a +:+ b)). destruct j as [|j].
  - apply (Ha O).
  - apply IH; [|done]. intros k. apply (Ha (S k)).
Qed.

Lemma get_cons_absent c x (s : string) :
  x <> c -> (forall j, String.get j s <> Some c) ->
  forall j, String.get j (String x s) <> Some c.
Proof. intros Hx Hs [|j]; [cbn; congruence|apply Hs]. Qed.

(** [basename] of a directory and a name is the name. *)
Lemma basename_join directory name :
  (forall j, String.get j name <> Some PosixPath.sep) ->
  PosixPath.basename (directory +:+ String PosixPath.sep name) = name.
Proof.
  intros Hname. unfold PosixPath.basename. rewrite rfind_last_occurrence by done.
  replace (Z.to_nat (Z.of_nat (String.length directory) + 1))
    with (String.length (directory +:+ String PosixPath.sep "")).
  - replace (directory +:+ String PosixPath.sep name)
      with ((directory +:+ String PosixPath.sep "") +:+ name)
      by (by rewrite string_app_assoc).
    apply str_drop_app_length.
  - clear. induction directory as [|x d IH]; [done|].
    change (S (String.length (d +:+ String PosixPath.sep ""))
            = Z.to_nat (Z.of_nat (S (String.length d)) + 1)).
    rewrite IH. lia.
Qed.

Lemma basename_plain name :
  (forall j, String.get j name <> Some PosixPath.sep) -> PosixPath.basename name = name.
Proof. intros Hname. unfold PosixPath.basename. by rewrite rfind_absent. Qed.

(** [splitext] of a plain name and an extension. *)
Lemma splitext_name_ext name ext :
  name <> "" ->
  (forall j, String.get j name <> Some PosixPath.sep) ->
  (forall j, String.get j name <> Some PosixPath.extsep) ->
  (forall j, String.get j ext <> Some PosixPath.sep) ->
  (forall j, String.get j ext <> Some PosixPath.extsep) ->
  PosixPath.splitext (name +:+ String PosixPath.extsep ext)
  = (name, String PosixPath.extsep ext).
Proof.
  intros Hne Hns Hnd Hes Hed. unfold PosixPath.splitext.
  rewrite rfind_last_occurrence by done.
  rewrite rfind_absent
    by (apply get_app_absent; [done|]; by apply get_cons_absent).
  assert (Hlt : (-1 <? Z.of_nat (String.length name)) = true) by (apply Z.ltb_lt; lia).
  rewrite Hlt.
  replace (Z.to_nat (-1 + 1)) with O by lia.
  destruct name as [|c name]; [done|].
  replace (Z.to_nat (Z.of_nat (String.length (String c name)) - (-1 + 1)))
    with (S (String.length name)) by (cbn [String.length]; lia).
  cbn [PosixPath.has_non_dot]. change (String c name +:+ ?x) with (String c (name +:+ x)).
  cbn [String.get].
  assert (Hc : Ascii.eqb c PosixPath.extsep = false).
  { apply Ascii.eqb_neq. intros ->. by destruct (Hnd O). }
  rewrite Hc. cbn [andb]. rewrite Nat2Z.id.
  change (String c (name +:+ ?x)) with (String c name +:+ x).
  by rewrite str_take_app_length, str_drop_app_length.
Qed.

Lemma splitext_plain name :
  (forall j, String.get j name <> Some PosixPath.extsep) ->
  PosixPath.splitext name = (name, "").
Proof.
  intros Hnd. unfold PosixPath.splitext. rewrite (rfind_absent PosixPath.extsep) by done.
  destruct (rfind_from_found PosixPath.sep name 0 (-1)) as [Hr|[Hr _]];
    fold (Str.rfind PosixPath.sep name) in Hr.
  - rewrite Hr. done.
  - assert (Hge : (Str.rfind PosixPath.sep name <? -1) = false) by (apply Z.ltb_ge; lia).
    by rewrite Hge.
Qed.

(** X10. The description of [directory/name.ext] is [name], when neither
    [name] nor [ext] has a slash or a dot; so are the descriptions of
    [name.ext], [directory/name] and [name]. *)
Theorem description_of_a_file_name directory name ext :
  name <> "" ->
  (forall j, String.get j name <> Some "/"%char) ->
  (forall j, String.get j name <> Some "."%char) ->
  (forall j, String.get j ext <> Some "/"%char) ->
  (forall j, String.get j ext <> Some "."%char) ->
  description_of (directory +:+ String "/" (name +:+ String "." ext)) = name
  /\ description_of (name +:+ String "." ext) = name
  /\ description_of (directory +:+ String "/" name) = name
  /\ description_of name = name.
Proof.
  intros Hne Hns Hnd Hes Hed. fold PosixPath.sep PosixPath.extsep in *.
  assert (Hfull : forall j,
            String.get j (name +:+ String PosixPath.extsep ext) <> Some PosixPath.sep).
  { apply get_app_absent; [done|]. by apply get_cons_absent. }
  unfold description_of.
  rewrite (basename_join directory (name +:+ String PosixPath.extsep ext)) by done.
  rewrite (basename_plain (name +:+ String PosixPath.extsep ext)) by done.
  rewrite (basename_join directory name), (basename_plain name) by done.
  rewrite (splitext_name_ext name ext), (splitext_plain name) by done.
  done.
Qed.

(** ** [json.loads] after [json.dumps] *)

(** ** Numbers *)

Lemma str_length_app (a b : string) :
  String.length (a +:+ b) = (String.length a + String.length b)%nat.
Proof.
  induction a as [|x a IH]; [done|].
  change (S (String.length (a +:+ b)) = S (String.length a + String.length b)). by rewrite IH.
Qed.

Lemma span_digits_stop rest : stops rest = true -> span_digits rest = ("", rest).
Proof.
  destruct rest as [|c rest]; [done|]. cbn [stops span_digits].
  destruct (is_digit c) eqn:Hd; [|done].
  intros H. exfalso. revert Hd H.
  destruct c as [[] [] [] [] [] [] [] []]; by vm_compute.
Qed.

(** Appending what may follow a value does not change what the digits
    are. *)
Lemma span_digits_app (s : string) rest d r :
  stops rest = true ->
  span_digits s = (d, r) ->
  span_digits (s +:+ rest) = (d, r +:+ rest).
Proof.
  intros Hstop. revert d r. induction s as [|c s IH]; intros d r.
  - cbn [span_digits]. intros [= <- <-]. by apply span_digits_stop.
  - change (String c s +:+ rest) with (String c (s +:+ rest)). cbn [span_digits].
    destruct (is_digit c).
    + destruct (span_digits s) as [d' r'] eqn:E. intros [= <- <-].
      by rewrite (IH d' r' eq_refl).
    + by intros [= <- <-].
Qed.

Lemma scan_number_stages s :
  scan_number s
  = let (sign, s1) := scan_sign s in
    let (digits, s2) := span_digits s1 in
    match digits with
    | EmptyString => scan_constant s
    | String _ _ =>
        let (integer, s3) := scan_integer digits s2 in
        let (frac, s4) := scan_frac s3 in
        let (exp, s5) := scan_exp s4 in
        match frac, exp with
        | EmptyString, EmptyString =>
            let n := digits_value integer 0 in
            Some (JInt (if String.eqb sign "-" then - n else n), s5)
        | _, _ => Some (JFloat (sign +:+ integer +:+ frac +:+ exp), s5)
        end
    end.
Proof.
  unfold scan_number, scan_sign, scan_integer, scan_frac, scan_exp, scan_constant.
  destruct s as [|c r]; [done|].
  destruct (Ascii.eqb c "-"); destruct (span_digits _) as [[|d ds] s2]; reflexivity.
Qed.

Lemma stops_head c rest : stops (String c rest) = true -> stop_char c = true.
Proof. done. Qed.

Lemma strip_prefix_app p : forall s rest,
  stops rest = true ->
  forallb (fun c => negb (stop_char c)) (list_ascii_of_string p) = true ->
  strip_prefix p (s +:+ rest)
  = match strip_prefix p s with
    | Some r => Some (r +:+ rest)
    | None => None
    end.
Proof.
  induction p as [|a p IH]; intros s rest Hstop Hp; [done|].
  cbn [list_ascii_of_string forallb] in Hp. apply andb_true_iff in Hp as [Ha Hp].
  destruct s as [|b s].
  - cbn [strip_prefix]. change ("" +:+ rest) with rest.
    destruct rest as [|b rest]; [done|]. cbn [strip_prefix].
    destruct (Ascii.eqb a b) eqn:E; [|done].
    apply Ascii.eqb_eq in E. subst b. apply stops_head in Hstop.
    rewrite Hstop in Ha. done.
  - change (String b s +:+ rest) with (String b (s +:+ rest)). cbn [strip_prefix].
    destruct (Ascii.eqb a b); [by apply IH|done].
Qed.

Lemma scan_sign_app c s rest sign s1 :
  scan_sign (String c s) = (sign, s1) ->
  scan_sign (String c s +:+ rest) = (sign, s1 +:+ rest).
Proof.
  change (String c s +:+ rest) with (String c (s +:+ rest)). cbn [scan_sign].
  destruct (Ascii.eqb c "-"); by intros [= <- <-].
Qed.

Lemma scan_integer_app digits s2 rest integer s3 :
  scan_integer digits s2 = (integer, s3) ->
  scan_integer digits (s2 +:+ rest) = (integer, s3 +:+ rest).
Proof.
  unfold scan_integer. destruct digits as [|d ds]; [by intros [= <- <-]|].
  destruct (Ascii.eqb d "0"); intros [= <- <-]; [|done].
  by rewrite string_app_assoc.
Qed.

Lemma stop_char_plain c :
  stop_char c = true ->
  Ascii.eqb c "." = false /\ Ascii.eqb c "e" = false /\ Ascii.eqb c "E" = false
  /\ Ascii.eqb c "-" = false /\ Ascii.eqb c "+" = false /\ is_digit c = false.
Proof. destruct c as [[] [] [] [] [] [] [] []]; by vm_compute. Qed.

Lemma scan_frac_app s3 rest frac s4 :
  stops rest = true ->
  scan_frac s3 = (frac, s4) ->
  scan_frac (s3 +:+ rest) = (frac, s4 +:+ rest).
Proof.
  intros Hstop. destruct s3 as [|c r].
  - intros [= <- <-]. change ("" +:+ rest) with rest.
    destruct rest as [|b rest]; [done|]. cbn [scan_frac].
    destruct (stop_char_plain b Hstop) as (-> & _). done.
  - change (String c r +:+ rest) with (String c (r +:+ rest)). cbn [scan_frac].
    destruct (Ascii.eqb c "."); [|by intros [= <- <-]].
    destruct (span_digits r) as [fd r'] eqn:E.
    rewrite (span_digits_app r rest fd r' Hstop E).
    destruct fd; by intros [= <- <-].
Qed.

Lemma scan_exp_app s4 rest exp s5 :
  stops rest = true ->
  scan_exp s4 = (exp, s5) ->
  scan_exp (s4 +:+ rest) = (exp, s5 +:+ rest).
Proof.
  intros Hstop. destruct s4 as [|c r].
  - intros [= <- <-]. change ("" +:+ rest) with rest.
    destruct rest as [|b rest]; [done|]. cbn [scan_exp].
    destruct (stop_char_plain b Hstop) as (_ & -> & -> & _). done.
  - change (String c r +:+ rest) with (String c (r +:+ rest)). cbn [scan_exp].
    destruct (Ascii.eqb c "e" || Ascii.eqb c "E")%bool; [|by intros [= <- <-]].
    destruct r as [|c' r'].
    + change ("" +:+ rest) with rest. cbn [span_digits].
      intros [= <- <-]. destruct rest as [|b rest]; [done|].
      destruct (stop_char_plain b Hstop) as (_ & _ & _ & -> & -> & Hd).
      cbn [orb span_digits]. by rewrite Hd.
    + change (String c' r' +:+ rest) with (String c' (r' +:+ rest)).
      assert (Hsign : forall sign,
                match span_digits r' with
                | (EmptyString, _) => ("", String c (String c' r'))
                | (ed, r2) => (String c (sign +:+ ed), r2)
                end = (exp, s5) ->
                match span_digits (r' +:+ rest) with
                | (EmptyString, _) => ("", String c (String c' (r' +:+ rest)))
                | (ed, r2) => (String c (sign +:+ ed), r2)
                end = (exp, s5 +:+ rest)).
      { intros sign. destruct (span_digits r') as [ed r2] eqn:E.
        rewrite (span_digits_app r' rest ed r2 Hstop E).
        destruct ed; by intros [= <- <-]. }
      cbv beta iota.
      destruct (Ascii.eqb c' "-"), (Ascii.eqb c' "+"); cbn [orb]; cbv beta iota;
        try apply Hsign.
      destruct (span_digits (String c' r')) as [ed r2] eqn:E.
      pose proof (span_digits_app (String c' r') rest ed r2 Hstop E) as E'.
      change (String c' r' +:+ rest) with (String c' (r' +:+ rest)) in E'.
      rewrite E'. destruct ed; by intros [= <- <-].
Qed.

(** What may follow a value does not change what [scan_number] reads. *)
Lemma scan_number_app s rest v r :
  stops rest = true ->
  scan_number s = Some (v, r) ->
  scan_number (s +:+ rest) = Some (v, r +:+ rest).
Proof.
  intros Hstop. rewrite !scan_number_stages.
  destruct s as [|c s]; [done|].
  destruct (scan_sign (String c s)) as [sign s1] eqn:Esign.
  rewrite (scan_sign_app c s rest sign s1 Esign).
  destruct (span_digits s1) as [digits s2] eqn:Edigits.
  rewrite (span_digits_app s1 rest digits s2 Hstop Edigits).
  destruct digits as [|d ds].
  - unfold scan_constant.
    rewrite (strip_prefix_app "NaN" (String c s) rest Hstop) by reflexivity.
    rewrite (strip_prefix_app "Infinity" (String c s) rest Hstop) by reflexivity.
    rewrite (strip_prefix_app "-Infinity" (String c s) rest Hstop) by reflexivity.
    destruct (strip_prefix "NaN" (String c s)), (strip_prefix "Infinity" (String c s)),
      (strip_prefix "-Infinity" (String c s)); by intros [= <- <-].
  - destruct (scan_integer (String d ds) s2) as [integer s3] eqn:Eint.
    rewrite (scan_integer_app _ s2 rest integer s3 Eint).
    destruct (scan_frac s3) as [frac s4] eqn:Efrac.
    rewrite (scan_frac_app s3 rest frac s4 Hstop Efrac).
    destruct (scan_exp s4) as [exp s5] eqn:Eexp.
    rewrite (scan_exp_app s4 rest exp s5 Hstop Eexp).
    destruct frac, exp; by intros [= <- <-].
Qed.

(** *** Integers *)

Lemma string_of_uint_digits d :
  forallb is_digit (list_ascii_of_string (NilEmpty.string_of_uint d)) = true.
Proof. induction d; cbn; done. Qed.

Lemma span_digits_all (s : string) :
  forallb is_digit (list_ascii_of_string s) = true -> span_digits s = (s, "").
Proof.
  induction s as [|c s IH]; [done|]. cbn [list_ascii_of_string forallb span_digits].
  intros [-> Hs]%andb_true_iff. by rewrite (IH Hs).
Qed.

Lemma digits_value_acc d : forall acc,
  digits_value (NilEmpty.string_of_uint d) (Z.pos acc) = Z.pos (Pos.of_uint_acc d acc).
Proof.
  induction d; intros acc; cbn [NilEmpty.string_of_uint digits_value Pos.of_uint_acc];
    [done|..];
    match goal with
    | |- digits_value _ (10 * Z.pos acc + ?k) = Z.pos (Pos.of_uint_acc _ ?b) =>
        let k' := eval vm_compute in k in
        replace (10 * Z.pos acc + k) with (Z.pos b) by (change k with k'; lia)
    end; apply IHd.
Qed.

Lemma digits_value_of_uint d :
  digits_value (NilEmpty.string_of_uint d) 0 = Z.of_N (Pos.of_uint d).
Proof.
  induction d; cbn [NilEmpty.string_of_uint digits_value Pos.of_uint]; [done|exact IHd|..];
    match goal with
    | |- digits_value _ ?a = Z.of_N (N.pos (Pos.of_uint_acc _ ?b)) =>
        let a' := eval vm_compute in a in change a with a'
    end; apply digits_value_acc.
Qed.

Lemma to_uint_head p l : Pos.to_uint p <> Decimal.D0 l.
Proof.
  intros H.
  assert (Hnorm : Decimal.unorm (Pos.to_uint p) = Pos.to_uint p).
  { rewrite <- DecimalPos.Unsigned.to_of, DecimalPos.Unsigned.of_to. done. }
  rewrite H, DecimalFacts.unorm_D0 in Hnorm. unfold Decimal.unorm in Hnorm.
  destruct (Decimal.nzhead l) eqn:E; try discriminate Hnorm.
  - injection Hnorm as <-. by apply (DecimalPos.Unsigned.to_uint_nonzero p).
  - by apply DecimalFacts.nzhead_nonzero in E.
Qed.

Lemma is_digit_not_sign c : is_digit c = true -> Ascii.eqb c "-" = false.
Proof. destruct c as [[] [] [] [] [] [] [] []]; by vm_compute. Qed.

Lemma scan_number_digits d ds :
  forallb is_digit (list_ascii_of_string (String d ds)) = true ->
  Ascii.eqb d "0" = false ->
  scan_number (String d ds) = Some (JInt (digits_value (String d ds) 0), "")
  /\ scan_number (String "-" (String d ds))
     = Some (JInt (- digits_value (String d ds) 0), "").
Proof.
  intros Hdigits Hd0.
  assert (Hdm : Ascii.eqb d "-" = false).
  { apply is_digit_not_sign. cbn in Hdigits. by apply andb_true_iff in Hdigits as [-> _]. }
  rewrite !scan_number_stages. cbn [scan_sign Ascii.eqb Bool.eqb]. rewrite Hdm.
  rewrite (span_digits_all _ Hdigits). unfold scan_integer. rewrite Hd0.
  cbn [scan_frac scan_exp String.eqb]. done.
Qed.

(** The decoder reads the decimal string of an integer as that integer. *)
Lemma scan_number_of_Z z : scan_number (Str.of_Z z) = Some (JInt z, "").
Proof.
  assert (Hpos : forall p,
            exists d ds, NilEmpty.string_of_uint (Pos.to_uint p) = String d ds
                         /\ Ascii.eqb d "0" = false
                         /\ NilZero.string_of_uint (Pos.to_uint p)
                            = NilEmpty.string_of_uint (Pos.to_uint p)).
  { intros p. pose proof (to_uint_head p) as Hhead.
    pose proof (DecimalPos.Unsigned.to_uint_nonnil p) as Hnil.
    destruct (Pos.to_uint p) as [|l|l|l|l|l|l|l|l|l|l];
      [done|by destruct (Hhead l)|..]; by eexists _, _. }
  assert (Hval : forall p,
            digits_value (NilEmpty.string_of_uint (Pos.to_uint p)) 0 = Z.pos p).
  { intros p. by rewrite digits_value_of_uint, DecimalPos.Unsigned.of_to. }
  unfold Str.of_Z. destruct z as [|p|p]; [done| |];
    cbn [Z.to_int NilZero.string_of_int];
    destruct (Hpos p) as (d & ds & Hs & Hd0 & ->);
    pose proof (string_of_uint_digits (Pos.to_uint p)) as Hdigits;
    specialize (Hval p); rewrite Hs in *;
    destruct (scan_number_digits d ds Hdigits Hd0) as [H1 H2];
    first [by rewrite H1, Hval | by rewrite H2, Hval].
Qed.

(** ** Strings *)

Lemma scanstring_escape_char c tail :
  scanstring (escape_char c +:+ tail)
  = match scanstring tail with
    | Some (str, r) => Some (String c str, r)
    | None => None
    end.
Proof. destruct c as [[] [] [] [] [] [] [] []]; reflexivity. Qed.

(** The decoder reads an escaped string back. *)
Lemma scanstring_escape (s : string) rest :
  scanstring (escape s +:+ String dquote rest) = Some (s, rest).
Proof.
  induction s as [|c s IH]; [done|]. cbn [escape].
  by rewrite string_app_assoc, scanstring_escape_char, IH.
Qed.

Lemma escape_char_printable c : all_printable (escape_char c) = true.
Proof. destruct c as [[] [] [] [] [] [] [] []]; reflexivity. Qed.

Lemma all_printable_app (a b : string) :
  all_printable (a +:+ b) = all_printable a && all_printable b.
Proof.
  unfold all_printable. induction a as [|c a IH]; [done|].
  change (String c a +:+ b) with (String c (a +:+ b)). cbn [list_ascii_of_string forallb].
  by rewrite IH, andb_assoc.
Qed.

Lemma escape_printable (s : string) : all_printable (escape s) = true.
Proof.
  induction s as [|c s IH]; [done|]. cbn [escape].
  by rewrite all_printable_app, escape_char_printable, IH.
Qed.

(** ** Values *)


Lemma json_dumps_JArr xs : json_dumps (JArr xs) = "[" +:+ dumps_items xs +:+ "]".
Proof. reflexivity. Qed.

Lemma json_dumps_JObj kvs : json_dumps (JObj kvs) = "{" +:+ dumps_members kvs +:+ "}".
Proof. reflexivity. Qed.

Lemma clean_JArr xs : clean (JArr xs) = forallb clean xs.
Proof.
  induction xs as [|x xs IH]; [done|].
  change (clean (JArr (x :: xs))) with (clean x && clean (JArr xs)).
  by rewrite IH.
Qed.

Lemma clean_JObj kvs :
  clean (JObj kvs) = distinct (map fst kvs) && forallb (fun kv => clean (snd kv)) kvs.
Proof.
  change (clean (JObj kvs))
    with (distinct (map fst kvs)
          && (fix all (l : list (string * json)) : bool :=
                match l with
                | [] => true
                | (_, x) :: l' => clean x && all l'
                end) kvs).
  f_equal. induction kvs as [|[k x] kvs IH]; [done|]. cbn [forallb snd]. by rewrite <- IH.
Qed.

Lemma float_char_head c :
  float_char c = true ->
  Ascii.eqb c dquote = false /\ Ascii.eqb c "{" = false /\ Ascii.eqb c "[" = false
  /\ Ascii.eqb "n" c = false /\ Ascii.eqb "t" c = false /\ Ascii.eqb "f" c = false
  /\ forall s, starts_value (String c s) = true.
Proof. destruct c as [[] [] [] [] [] [] [] []]; by vm_compute. Qed.

(** A text of digits, signs, dots and exponent marks that [scan_number]
    reads as a whole is read by [scan_once] in the same way, whatever
    follows the value. *)
Lemma scan_once_number fuel l v rest :
  forallb float_char (list_ascii_of_string l) = true ->
  scan_number l = Some (v, "") ->
  stops rest = true ->
  scan_once (S fuel) (l +:+ rest) = Some (v, rest).
Proof.
  intros Hchars Hscan Hstop. destruct l as [|c l]; [done|].
  cbn [list_ascii_of_string forallb] in Hchars. apply andb_true_iff in Hchars as [Hc _].
  destruct (float_char_head c Hc) as (H1 & H2 & H3 & H4 & H5 & H6 & _).
  pose proof (scan_number_app _ rest _ _ Hstop Hscan) as Happ.
  change (String c l +:+ rest) with (String c (l +:+ rest)) in *.
  cbn [scan_once strip_prefix]. rewrite H1, H2, H3, H4, H5, H6. exact Happ.
Qed.

Lemma of_Z_float_chars z :
  forallb float_char (list_ascii_of_string (Str.of_Z z)) = true.
Proof.
  assert (Hd : forall d,
            forallb float_char (list_ascii_of_string (NilEmpty.string_of_uint d)) = true).
  { intros d. induction d; cbn; done. }
  assert (Hz : forall d,
            forallb float_char (list_ascii_of_string (NilZero.string_of_uint d)) = true).
  { intros d. destruct d; try apply Hd. done. }
  unfold Str.of_Z. destruct (Z.to_int z) as [d|d]; cbn [NilZero.string_of_int].
  - apply Hz.
  - cbn [list_ascii_of_string forallb]. by rewrite Hz.
Qed.

(** The literal of a float is read back as that float. *)
Lemma scan_once_float fuel l rest :
  is_float_literal l = true ->
  stops rest = true ->
  scan_once (S fuel) (l +:+ rest) = Some (JFloat l, rest)
  /\ (forall r, starts_value (l +:+ r) = true)
  /\ all_printable l = true.
Proof.
  intros Hlit Hstop. unfold is_float_literal in Hlit.
  apply orb_true_iff in Hlit as [Hspecial|Hnumber].
  - apply orb_true_iff in Hspecial as [Hspecial|Hs];
      [apply orb_true_iff in Hspecial as [Hs|Hs]|];
      apply String.eqb_eq in Hs; subst l; done.
  - apply andb_true_iff in Hnumber as [Hchars Hscan].
    destruct (scan_number l) as [[[| | |l'| | |] [|]]|] eqn:E; try done.
    apply String.eqb_eq in Hscan. subst l'.
    split; [by apply scan_once_number|]. split.
    + intros r. destruct l as [|c l]; [done|].
      cbn [list_ascii_of_string forallb] in Hchars.
      apply andb_true_iff in Hchars as [Hc _].
      destruct (float_char_head c Hc) as (_ & _ & _ & _ & _ & _ & Hv). apply Hv.
    + unfold all_printable. clear -Hchars.
      induction l as [|c l IH]; [done|]. cbn [list_ascii_of_string forallb] in *.
      apply andb_true_iff in Hchars as [Hc Hl]. rewrite (IH Hl), andb_true_r.
      revert Hc. destruct c as [[] [] [] [] [] [] [] []]; by vm_compute.
Qed.

Lemma scan_once_int fuel z rest :
  stops rest = true ->
  scan_once (S fuel) (Str.of_Z z +:+ rest) = Some (JInt z, rest)
  /\ (forall r, starts_value (Str.of_Z z +:+ r) = true)
  /\ all_printable (Str.of_Z z) = true.
Proof.
  intros Hstop. pose proof (of_Z_float_chars z) as Hchars.
  pose proof (scan_number_of_Z z) as Hscan.
  split; [by apply scan_once_number|]. split.
  - intros r. destruct (Str.of_Z z) as [|c l]; [done|].
    cbn [list_ascii_of_string forallb] in Hchars.
    apply andb_true_iff in Hchars as [Hc _].
    destruct (float_char_head c Hc) as (_ & _ & _ & _ & _ & _ & Hv). apply Hv.
  - unfold all_printable. clear -Hchars.
    induction (Str.of_Z z) as [|c l IH]; [done|]. cbn [list_ascii_of_string forallb] in *.
    apply andb_true_iff in Hchars as [Hc Hl]. rewrite (IH Hl), andb_true_r.
    revert Hc. destruct c as [[] [] [] [] [] [] [] []]; by vm_compute.
Qed.

Lemma dumps_starts_value v rest :
  clean v = true -> starts_value (json_dumps v +:+ rest) = true.
Proof.
  destruct v as [|[]|z|l|s|xs|kvs]; intros Hclean; try done.
  - by apply (scan_once_int 0 z "").
  - by apply (scan_once_float 0 l "").
Qed.

Lemma skip_ws_starts_value s : starts_value s = true -> skip_ws s = s.
Proof.
  destruct s as [|c s]; [done|]. cbn [starts_value skip_ws].
  destruct (Ascii.eqb c " "), (Ascii.eqb c "009"), (Ascii.eqb c newline),
    (Ascii.eqb c carriage_return); done.
Qed.

Lemma stops_not_space s : stops s = true -> skip_ws s = s.
Proof.
  destruct s as [|c s]; [done|]. cbn [stops skip_ws].
  destruct c as [[] [] [] [] [] [] [] []]; by vm_compute.
Qed.

Lemma scan_once_str fuel (s : string) rest :
  scan_once (S fuel) (dumps_str s +:+ rest) = Some (JStr s, rest).
Proof.
  unfold dumps_str. change (String dquote ?a +:+ rest) with (String dquote (a +:+ rest)).
  cbn [scan_once]. rewrite Ascii.eqb_refl, string_app_assoc.
  change (String dquote "" +:+ rest) with (String dquote rest).
  by rewrite scanstring_escape.
Qed.

Lemma dict_set_fresh key v acc :
  existsb (String.eqb key) (map fst acc) = false ->
  dict_set key v acc = acc ++ [(key, v)].
Proof.
  induction acc as [|[k x] acc IH]; [done|]. cbn [map fst existsb dict_set].
  intros [Hk Hacc]%orb_false_iff. rewrite String.eqb_sym, Hk. by rewrite (IH Hacc).
Qed.

Lemma distinct_app_cons l1 k l2 :
  distinct (l1 ++ k :: l2) = true ->
  existsb (String.eqb k) l1 = false /\ distinct ((l1 ++ [k]) ++ l2) = true.
Proof.
  intros H. split; [|by rewrite <- app_assoc].
  induction l1 as [|a l1 IH]; [done|]. cbn [app distinct existsb] in *.
  apply andb_true_iff in H as [Ha Hrest]. rewrite (IH Hrest), orb_false_r.
  apply negb_true_iff in Ha. rewrite existsb_app in Ha.
  apply orb_false_iff in Ha as [_ Ha]. cbn [existsb] in Ha.
  apply orb_false_iff in Ha as [Ha _]. by rewrite String.eqb_sym.
Qed.

Ltac chars := cbn [skip_ws Ascii.eqb Bool.eqb andb orb newline carriage_return dquote].

Lemma scan_elements_items l : forall acc f r,
  l <> [] ->
  forallb clean l = true ->
  Forall reads_back l ->
  (String.length (dumps_items l) + 1 <= f)%nat ->
  scan_elements f (dumps_items l +:+ String "]" r) acc = Some (JArr (acc ++ l), r).
Proof.
  induction l as [|x l IHl]; intros acc f r Hne Hcl IH Hf; [done|].
  cbn [forallb] in Hcl. apply andb_true_iff in Hcl as [Hx Hcl].
  apply Forall_cons in IH as [IHx IH].
  destruct f as [|f]; [lia|]. destruct l as [|y l].
  - change (dumps_items [x]) with (json_dumps x +:+ "") in *.
    rewrite string_app_nil_r in *. cbn [scan_elements].
    rewrite (IHx Hx f (String "]" r) eq_refl) by lia. by chars.
  - change (dumps_items (x :: y :: l))
      with (json_dumps x +:+ String "," (String " " (dumps_items (y :: l)))) in *.
    rewrite str_length_app in Hf. cbn [String.length] in Hf.
    rewrite string_app_assoc.
    change (String "," (String " " ?a) +:+ ?b) with (String "," (String " " (a +:+ b))).
    cbn [scan_elements].
    rewrite (IHx Hx f (String "," (String " " (dumps_items (y :: l) +:+ String "]" r)))
               eq_refl) by lia.
    chars. rewrite skip_ws_starts_value.
    + rewrite (IHl (acc ++ [x]) f r); [by rewrite <- app_assoc|done|done|done|lia].
    + change (dumps_items (y :: l))
        with (json_dumps y +:+ match l with
                               | [] => ""
                               | _ => ", " +:+ dumps_items l
                               end).
      rewrite string_app_assoc. apply dumps_starts_value.
      cbn [forallb] in Hcl. by apply andb_true_iff in Hcl as [Hy _].
Qed.

(** Appends are pushed to the right and under the characters in front. *)
Ltac push_app :=
  repeat first
    [ rewrite string_app_assoc
    | progress change (String ?c ?a +:+ ?b) with (String c (a +:+ b))
    | progress change (EmptyString +:+ ?b) with b ].

Lemma scan_members_members l : forall acc f r,
  l <> [] ->
  distinct (map fst acc ++ map fst l) = true ->
  forallb (fun kv => clean (snd kv)) l = true ->
  Forall (fun kv => reads_back (snd kv)) l ->
  (String.length (dumps_members l) + 1 <= f)%nat ->
  scan_members f (dumps_members l +:+ String "}" r) acc = Some (JObj (acc ++ l), r).
Proof.
  induction l as [|[k x] l IHl]; intros acc f r Hne Hkeys Hcl IH Hf; [done|].
  cbn [forallb snd] in Hcl. apply andb_true_iff in Hcl as [Hx Hcl].
  apply Forall_cons in IH as [IHx IH]. cbn [snd] in IHx.
  cbn [map fst] in Hkeys. apply distinct_app_cons in Hkeys as [Hfresh Hkeys].
  destruct f as [|f]; [lia|].
  destruct l as [|[k' y] l].
  - change (dumps_members [(k, x)])
      with (dumps_str k +:+ ": " +:+ json_dumps x +:+ "") in *.
    rewrite !str_length_app in Hf. cbn [String.length] in Hf.
    unfold dumps_str. push_app.
    cbn [scan_members]. rewrite Ascii.eqb_refl, scanstring_escape. chars.
    rewrite skip_ws_starts_value by (by apply dumps_starts_value).
    rewrite (IHx Hx f (String "}" r) eq_refl) by lia. chars.
    by rewrite (dict_set_fresh k x acc Hfresh).
  - change (dumps_members ((k, x) :: (k', y) :: l))
      with (dumps_str k +:+ ": " +:+ json_dumps x +:+ ", "
            +:+ dumps_members ((k', y) :: l)) in *.
    rewrite !str_length_app in Hf. cbn [String.length] in Hf.
    unfold dumps_str at 1. push_app.
    cbn [scan_members]. rewrite Ascii.eqb_refl, scanstring_escape. chars.
    rewrite skip_ws_starts_value by (by apply dumps_starts_value).
    rewrite (IHx Hx f (String "," (String " " (dumps_members ((k', y) :: l)
                                                 +:+ String "}" r))) eq_refl) by lia.
    chars. rewrite (dict_set_fresh k x acc Hfresh).
    rewrite skip_ws_starts_value by done.
    rewrite (IHl (acc ++ [(k, x)]) f r); [by rewrite <- app_assoc|done| |done|done|lia].
    by rewrite map_app.
Qed.

Lemma starts_value_inv s :
  starts_value s = true ->
  exists c r, s = String c r /\ Ascii.eqb c "]" = false /\ Ascii.eqb c "}" = false.
Proof.
  destruct s as [|c r]; [done|]. cbn [starts_value]. intros H. exists c, r.
  apply negb_true_iff in H. repeat (apply orb_false_iff in H as [H ?]). done.
Qed.

(** The decoder reads a value that [json.dumps] wrote back as that value,
    whatever follows it, when its fuel covers the length of the text. *)
Lemma scan_once_dumps v : reads_back v.
Proof.
  induction v as [|b|z|l|s|xs IHxs|kvs IHkvs] using json_nested_ind;
    intros Hclean fuel rest Hstop Hfuel.
  - destruct fuel; [cbn in Hfuel; lia|done].
  - destruct fuel; [destruct b; cbn in Hfuel; lia|by destruct b].
  - destruct fuel as [|fuel].
    + destruct (scan_once_int 0 z "" eq_refl) as (_ & H & _). specialize (H "").
      cbn [json_dumps] in Hfuel. destruct (Str.of_Z z); [done|cbn in Hfuel; lia].
    + by apply scan_once_int.
  - destruct fuel as [|fuel].
    + destruct (scan_once_float 0 l "" Hclean eq_refl) as (_ & H & _). specialize (H "").
      cbn [json_dumps] in Hfuel. destruct l; [done|cbn in Hfuel; lia].
    + by apply scan_once_float.
  - destruct fuel as [|fuel]; [cbn in Hfuel; lia|apply scan_once_str].
  - rewrite clean_JArr in Hclean. rewrite json_dumps_JArr in *.
    rewrite !str_length_app in Hfuel. cbn [String.length] in Hfuel.
    destruct fuel as [|fuel]; [lia|]. push_app. cbn [scan_once]. chars.
    destruct xs as [|x xs]; [by chars|].
    assert (Hstart : starts_value (dumps_items (x :: xs) +:+ String "]" rest) = true).
    { change (dumps_items (x :: xs))
        with (json_dumps x +:+ match xs with
                               | [] => ""
                               | _ => ", " +:+ dumps_items xs
                               end).
      rewrite string_app_assoc. apply dumps_starts_value.
      cbn [forallb] in Hclean. by apply andb_true_iff in Hclean as [Hx _]. }
    rewrite (skip_ws_starts_value _ Hstart).
    destruct (starts_value_inv _ Hstart) as (c & r & E & Hc & _).
    rewrite E, Hc, <- E.
    rewrite (scan_elements_items (x :: xs) [] fuel rest); [done|done|done|done|lia].
  - rewrite clean_JObj in Hclean. apply andb_true_iff in Hclean as [Hkeys Hclean].
    rewrite json_dumps_JObj in *.
    rewrite !str_length_app in Hfuel. cbn [String.length] in Hfuel.
    destruct fuel as [|fuel]; [lia|]. push_app. cbn [scan_once]. chars.
    destruct kvs as [|[k x] kvs]; [by chars|].
    assert (Hstart : starts_value (dumps_members ((k, x) :: kvs) +:+ String "}" rest) = true).
    { done. }
    rewrite (skip_ws_starts_value _ Hstart).
    destruct (starts_value_inv _ Hstart) as (c & r & E & _ & Hc).
    rewrite E, Hc, <- E.
    rewrite (scan_members_members ((k, x) :: kvs) [] fuel rest); [done|done|done|done|done|lia].
Qed.

(** [json.loads(json.dumps(v))] is [v]. *)
Lemma json_loads_dumps v : clean v = true -> json_loads (json_dumps v) = Ok v.
Proof.
  intros Hclean. unfold json_loads.
  pose proof (dumps_starts_value v "" Hclean) as Hstart.
  rewrite string_app_nil_r in Hstart. rewrite (skip_ws_starts_value _ Hstart).
  pose proof (scan_once_dumps v Hclean
                (2 * String.length (json_dumps v) + 2)%nat "" eq_refl) as H.
  rewrite string_app_nil_r in H. rewrite H by lia. done.
Qed.

(** ** The store between the two cells *)

(** ** The lines of the store *)

Lemma dumps_items_printable xs :
  Forall (fun x => clean x = true -> all_printable (json_dumps x) = true) xs ->
  forallb clean xs = true ->
  all_printable (dumps_items xs) = true.
Proof.
  induction 1 as [|x xs Hx _ IH]; [done|]. cbn [forallb dumps_items].
  intros [Hcx Hcxs]%andb_true_iff.
  rewrite all_printable_app, (Hx Hcx), andb_true_l.
  destruct xs as [|y xs]; [done|]. rewrite all_printable_app. by rewrite (IH Hcxs).
Qed.

Lemma dumps_str_printable s : all_printable (dumps_str s) = true.
Proof.
  unfold dumps_str.
  change (String dquote ?a) with (String dquote "" +:+ a).
  by rewrite !all_printable_app, escape_printable.
Qed.

Lemma dumps_members_printable kvs :
  Forall (fun kv => clean (snd kv) = true -> all_printable (json_dumps (snd kv)) = true) kvs ->
  forallb (fun kv => clean (snd kv)) kvs = true ->
  all_printable (dumps_members kvs) = true.
Proof.
  induction 1 as [|[k x] kvs Hx _ IH]; [done|]. cbn [forallb dumps_members snd] in *.
  intros [Hcx Hcxs]%andb_true_iff.
  rewrite !all_printable_app, dumps_str_printable, (Hx Hcx). cbn [andb].
  destruct kvs as [|y kvs]; [done|]. rewrite all_printable_app. by rewrite (IH Hcxs).
Qed.

(** [json.dumps] writes characters from [' '] to ['~'] only. *)
Lemma dumps_printable v : clean v = true -> all_printable (json_dumps v) = true.
Proof.
  induction v as [|b|z|l|s|xs IHxs|kvs IHkvs] using json_nested_ind; intros Hclean.
  - done.
  - by destruct b.
  - by apply (scan_once_int 0 z "").
  - by apply (scan_once_float 0 l "").
  - apply dumps_str_printable.
  - rewrite clean_JArr in Hclean. rewrite json_dumps_JArr, !all_printable_app.
    by rewrite dumps_items_printable.
  - rewrite clean_JObj in Hclean. apply andb_true_iff in Hclean as [_ Hclean].
    rewrite json_dumps_JObj, !all_printable_app.
    by rewrite dumps_members_printable.
Qed.

Lemma printable_plain c :
  printable c = true ->
  Ascii.eqb c newline = false /\ Ascii.eqb c carriage_return = false
  /\ (Ascii.eqb c " " = false -> Str.isspace c = false).
Proof. destruct c as [[] [] [] [] [] [] [] []]; by vm_compute. Qed.

Lemma float_char_not_space c : float_char c = true -> Ascii.eqb c " " = false.
Proof. destruct c as [[] [] [] [] [] [] [] []]; by vm_compute. Qed.

Lemma last_char (P : ascii -> bool) (s : string) :
  s <> "" -> forallb P (list_ascii_of_string s) = true ->
  exists a c, s = a +:+ String c "" /\ P c = true.
Proof.
  induction s as [|c s IH]; [done|]. intros _. cbn [list_ascii_of_string forallb].
  intros [Hc Hs]%andb_true_iff. destruct s as [|c' s].
  - by exists "", c.
  - destruct (IH ltac:(done) Hs) as (a & d & E & Hd).
    exists (String c a), d. split; [|done].
    change (String c a +:+ String d "") with (String c (a +:+ String d "")).
    by rewrite <- E.
Qed.

(** The text of a value ends with a character that is not a space. *)
Lemma dumps_last v :
  clean v = true ->
  exists a c, json_dumps v = a +:+ String c "" /\ Ascii.eqb c " " = false.
Proof.
  destruct v as [|[]|z|l|s|xs|kvs]; intros Hclean.
  - by exists "nul", "l"%char.
  - by exists "tru", "e"%char.
  - by exists "fals", "e"%char.
  - cbn [json_dumps].
    destruct (last_char float_char (Str.of_Z z)) as (a & c & E & Hc).
    + pose proof (scan_once_int 0 z "" eq_refl) as (_ & H & _). specialize (H "").
      by destruct (Str.of_Z z).
    + apply of_Z_float_chars.
    + exists a, c. split; [done|by apply float_char_not_space].
  - cbn [json_dumps]. cbn [clean] in Hclean. unfold is_float_literal in Hclean.
    apply orb_true_iff in Hclean as [Hspecial|Hnumber].
    + apply orb_true_iff in Hspecial as [Hspecial|Hs];
        [apply orb_true_iff in Hspecial as [Hs|Hs]|];
        apply String.eqb_eq in Hs; subst l.
      * by exists "Na", "N"%char.
      * by exists "Infinit", "y"%char.
      * by exists "-Infinit", "y"%char.
    + apply andb_true_iff in Hnumber as [Hchars Hscan].
      destruct (last_char float_char l) as (a & c & E & Hc); [|done|].
      * intros ->. done.
      * exists a, c. split; [done|by apply float_char_not_space].
  - exists (String dquote (escape s)), dquote. split; [|done].
    cbn [json_dumps]. unfold dumps_str.
    by change (String dquote (escape s) +:+ String dquote "")
      with (String dquote (escape s +:+ String dquote "")).
  - exists ("[" +:+ dumps_items xs), "]"%char. split; [|done].
    by rewrite json_dumps_JArr, string_app_assoc.
  - exists ("{" +:+ dumps_members kvs), "}"%char. split; [|done].
    by rewrite json_dumps_JObj, string_app_assoc.
Qed.

Lemma rstrip_line (a : string) c :
  Str.isspace c = false ->
  Str.rstrip (a +:+ String c (String newline "")) = a +:+ String c "".
Proof.
  intros Hc. induction a as [|d a IH].
  - change ("" +:+ ?s) with s. cbn [Str.rstrip]. rewrite Hc.
    by change (Str.isspace newline) with true.
  - change (String d a +:+ ?s) with (String d (a +:+ s)). cbn [Str.rstrip].
    rewrite IH. by destruct a.
Qed.

(** [line.strip()] of a line of the store is the text of its record. *)
Lemma strip_store_line v :
  clean v = true -> Str.strip (store_line v) = json_dumps v.
Proof.
  intros Hclean. unfold store_line, Str.strip.
  pose proof (dumps_printable v Hclean) as Hprint.
  pose proof (dumps_starts_value v "" Hclean) as Hstart.
  rewrite string_app_nil_r in Hstart.
  destruct (dumps_last v Hclean) as (a & c & E & Hc).
  assert (Hhead : Str.lstrip (json_dumps v +:+ String newline "")
                  = json_dumps v +:+ String newline "").
  { destruct (json_dumps v) as [|d s]; [done|].
    change (String d s +:+ ?t) with (String d (s +:+ t)). cbn [Str.lstrip].
    unfold all_printable in Hprint. cbn [list_ascii_of_string forallb] in Hprint.
    apply andb_true_iff in Hprint as [Hd _].
    destruct (printable_plain d Hd) as (_ & _ & Hsp). rewrite Hsp; [done|].
    cbn [starts_value] in Hstart. apply negb_true_iff in Hstart.
    by repeat (apply orb_false_iff in Hstart as [Hstart ?]). }
  rewrite Hhead, E, string_app_assoc.
  change (String c "" +:+ String newline "") with (String c (String newline "")).
  apply rstrip_line. rewrite E, all_printable_app in Hprint.
  apply andb_true_iff in Hprint as [_ Hprint].
  unfold all_printable in Hprint. cbn [list_ascii_of_string forallb] in Hprint.
  apply andb_true_iff in Hprint as [Hp _].
  by apply (printable_plain c Hp).
Qed.

Lemma universal_newlines_line (a b : string) :
  all_printable a = true ->
  universal_newlines (a +:+ String newline b) = a +:+ String newline (universal_newlines b).
Proof.
  unfold all_printable. induction a as [|c a IH]; intros Ha.
  - done.
  - cbn [list_ascii_of_string forallb] in Ha. apply andb_true_iff in Ha as [Hc Ha].
    change (String c a +:+ ?s) with (String c (a +:+ s)). cbn [universal_newlines].
    destruct (printable_plain c Hc) as (_ & -> & _). by rewrite (IH Ha).
Qed.

Lemma readlines_line (a b : string) :
  all_printable a = true ->
  readlines (a +:+ String newline b) = (a +:+ String newline "") :: readlines b.
Proof.
  unfold all_printable. induction a as [|c a IH]; intros Ha.
  - change ("" +:+ ?s) with s. cbn [readlines]. by rewrite Ascii.eqb_refl.
  - cbn [list_ascii_of_string forallb] in Ha. apply andb_true_iff in Ha as [Hc Ha].
    change (String c a +:+ ?s) with (String c (a +:+ s)). cbn [readlines].
    destruct (printable_plain c Hc) as (-> & _ & _). by rewrite (IH Ha).
Qed.

Lemma store_text_cons r records :
  store_text (r :: records) = json_dumps r +:+ String newline (store_text records).
Proof.
  cbn [store_text]. unfold store_line. by rewrite string_app_assoc.
Qed.

(** Reading the store back gives one line per record, in the order of the
    records: no record is split over lines and none shares a line. *)
Lemma store_lines records :
  forallb clean records = true ->
  readlines (universal_newlines (store_text records)) = map store_line records.
Proof.
  induction records as [|r records IH]; [done|]. cbn [forallb map].
  intros [Hr Hrs]%andb_true_iff. pose proof (dumps_printable r Hr) as Hp.
  rewrite store_text_cons, universal_newlines_line, readlines_line by done.
  by rewrite (IH Hrs).
Qed.

Lemma store_lines_decode records :
  forallb clean records = true ->
  Forall2 (fun line v => json_loads (Str.strip line) = Ok v)
    (readlines (universal_newlines (store_text records))) records.
Proof.
  intros Hclean. rewrite (store_lines records Hclean).
  apply Forall2_fmap_l, Forall_Forall2_diag, Forall_forall.
  intros r Hr. rewrite forallb_forall in Hclean.
  assert (clean r = true) as Hc.
  { apply Hclean. by apply list_elem_of_In. }
  unfold compose. rewrite (strip_store_line r Hc). by apply json_loads_dumps.
Qed.

(** ** From the embedding calls to the index *)

Section Pipeline.

Variable remote : list request -> request -> post_outcome.
Variable guess_type : string -> option string.
Variable index_service : list json -> result (list (string * Z)).

(** A response that the retry loop hands over is the answer to the last
    request posted, and its status is no error status. *)
Lemma Retrying_Ok path mt content : forall n w r w',
  files w !! path = Some content ->
  Retrying n (attempt remote path mt) w = (Ok r, w') ->
  exists history,
    posted w' = history ++ [{| content_type := mt; data := content |}]
    /\ remote history {| content_type := mt; data := content |} = Responds r
    /\ (400 <=? status_code r) && (status_code r <? 600) = false.
Proof.
  induction n as [|n IH]; intros w r w' Hfile;
    rewrite Retrying_unfold, (attempt_readable _ _ _ content) by done;
    destruct (remote (posted w) _) as [r0|e] eqn:Hremote; cbn [attempt_result].
  all: try destruct ((400 <=? status_code r0) && (status_code r0 <? 600)) eqn:Hstatus.
  all: cbn [retry_if_exception_type_HTTPError].
  all: try (destruct (retry_if_exception_type_HTTPError e)).
  all: try discriminate.
  all: try (intros [= <- <-]; exists (posted w); done).
  all: by apply IH.
Qed.

Lemma vectorize_image_Ok_inv path w v w' :
  vectorize_image remote guess_type path w = (Ok v, w') ->
  exists r kvs,
    Retrying (max_attempt_number - 1) (attempt remote path (guess_type path)) w = (Ok r, w')
    /\ body r = Some (JObj kvs) /\ assoc "vector" kvs = Some v.
Proof.
  unfold vectorize_image, bind.
  destruct (Retrying _ _ w) as [[r|e] w1] eqn:Hloop; [|done].
  unfold response_json. destruct (body r) as [x|] eqn:Hbody; [|done].
  unfold ret, subscript. destruct x as [| | | | | |kvs]; try done.
  destruct (assoc _ kvs) as [y|] eqn:E; [|done].
  intros [= <- <-]. by exists r, kvs.
Qed.

Lemma clean_assoc key kvs v :
  clean (JObj kvs) = true -> assoc key kvs = Some v -> clean v = true.
Proof.
  rewrite clean_JObj. intros [_ Hall]%andb_true_iff.
  induction kvs as [|[k x] kvs IH]; [done|]. cbn [forallb snd assoc] in *.
  apply andb_true_iff in Hall as [Hx Hall].
  destruct (String.eqb k key); [by intros [= <-]|by apply IH].
Qed.

Lemma vectorize_image_clean path w :
  answers_clean remote ->
  clean (vector_of (fst (vectorize_image remote guess_type path w))) = true.
Proof.
  intros Hremote.
  destruct (vectorize_image remote guess_type path w) as [[v|e] w'] eqn:E; [|done].
  destruct (vectorize_image_Ok_inv _ _ _ _ E) as (r & kvs & Hloop & Hbody & Hvec).
  destruct (files w !! path) as [content|] eqn:Hfile.
  - destruct (Retrying_Ok _ _ content _ _ _ _ Hfile Hloop) as (history & _ & Hanswer & _).
    cbn [fst vector_of]. eapply clean_assoc; [|done]. by eapply Hremote.
  - by rewrite vectorize_image_unreadable in E.
Qed.

Lemma records_from_clean items : forall idx w,
  answers_clean remote ->
  forallb clean (records_from remote guess_type idx items w) = true.
Proof.
  induction items as [|item items IH]; intros idx w Hremote; [done|].
  cbn [records_from]. destruct (item_path item) as [p|]; [|by apply IH].
  cbn [forallb]. rewrite IH by done. rewrite andb_true_r.
  unfold output_record. rewrite clean_JObj. cbn [map fst forallb snd].
  rewrite vectorize_image_clean by done. done.
Qed.

(** X2. The vector that [vectorize_image] returns is the [vector] member of the
    body of the answer to the last request of the call, and the status of
    that answer is outside 400..599. *)
Theorem vector_is_the_last_answer path w v w' :
  vectorize_image remote guess_type path w = (Ok v, w') ->
  exists content history r kvs,
    files w !! path = Some content
    /\ posted w' = history ++ [request_for guess_type path content]
    /\ remote history (request_for guess_type path content) = Responds r
    /\ (status_code r < 400 \/ 600 <= status_code r)
    /\ body r = Some (JObj kvs)
    /\ assoc "vector" kvs = Some v.
Proof.
  intros E.
  destruct (vectorize_image_Ok_inv _ _ _ _ E) as (r & kvs & Hloop & Hbody & Hvec).
  destruct (files w !! path) as [content|] eqn:Hfile.
  - destruct (Retrying_Ok _ _ content _ _ _ _ Hfile Hloop)
      as (history & Hposted & Hanswer & Hstatus).
    exists content, history, r, kvs. repeat split; try done.
    apply andb_false_iff in Hstatus as [H|H]; [left|right]; lia.
  - by rewrite vectorize_image_unreadable in E.
Qed.

(** X17. After a run of the embedding cell over a well-formed manifest, the
    publishing cell decodes every line of the store and uploads, in one
    call, exactly the records of the run in their order. *)
Theorem run_then_push_uploads_the_records items w :
  answers_clean remote ->
  Forall well_formed items ->
  let stored := snd (embed_images remote guess_type (JArr items) w) in
  let records := records_from remote guess_type 0 items
                   (snd (open_write output_json_file w)) in
  uploaded (snd (push_documents json_loads index_service stored))
  = uploaded w ++ [records]
  /\ fst (push_documents json_loads index_service stored)
     = match index_service records with
       | Ok _ => Ok tt
       | Raise e => Raise e
       end.
Proof.
  intros Hremote Hwf stored records.
  destruct (embed_images_records remote guess_type items w Hwf) as (w1 & Hrun & Hstore & _).
  assert (Hup : uploaded stored = uploaded w).
  { destruct (grows_embed_images remote guess_type (JArr items) w)
      as (_ & _ & _ & _ & _ & _ & H). apply H. }
  assert (Hw1 : stored = w1) by (subst stored; by rewrite Hrun). 
  unfold push_documents, bind, open_read. rewrite Hw1 in *. rewrite Hstore.
  rewrite (load_lines_all json_loads _ records [] w1);
    [|apply store_lines_decode, records_from_clean, Hremote].
  cbn [app]. unfold upload_documents. rewrite Hup.
  destruct (index_service records) as [results|e]; [|done].
  destruct (print_results_uploaded results (set_uploaded (uploaded w ++ [records]) w1))
    as (w2 & -> & Hu). cbn [fst snd]. by rewrite Hu.
Qed.

End Pipeline.

(** X15. A value that the embedding cell dumps into a line of the store is the
    value that the publishing cell loads from that line. *)
Theorem stored_line_reads_back v :
  clean v = true ->
  json_loads (json_dumps v) = Ok v
  /\ Str.strip (store_line v) = json_dumps v
  /\ json_loads (Str.strip (store_line v)) = Ok v.
Proof.
  intros Hclean. split; [by apply json_loads_dumps|]. split; [by apply strip_store_line|].
  rewrite strip_store_line by done. by apply json_loads_dumps.
Qed.

(** X16. The store has one line per record: the [i]-th line that the publishing
    cell reads is the text of the [i]-th record and its newline. *)
Theorem store_has_one_line_per_record records :
  forallb clean records = true ->
  length (readlines (universal_newlines (store_text records))) = length records
  /\ forall i r,
       records !! i = Some r ->
       readlines (universal_newlines (store_text records)) !! i
       = Some (json_dumps r +:+ String newline "").
Proof.
  intros Hclean. rewrite (store_lines records Hclean). split.
  - by rewrite length_map.
  - intros i r Hr. by rewrite list_lookup_fmap, Hr.
Qed.

(** ** The added laws at work *)

(** A missing image, and an endpoint that answers 429 to every request. *)
Lemma vectorize_image_effects_witness :
  vectorize_image (always_status 429) guess_by_extension (in_apples "none.jpg")
    (fresh_world five_images)
  = (Raise (OSError (in_apples "none.jpg")), fresh_world five_images)
  /\ exists j, (1 <= j <= max_attempt_number)%nat
       /\ posted (snd (vectorize_image (always_status 429) guess_by_extension
                         (in_apples "img0.jpg") (fresh_world five_images)))
          = posted (fresh_world five_images)
            ++ replicate j (request_for guess_by_extension (in_apples "img0.jpg") "0")
       /\ slept (snd (vectorize_image (always_status 429) guess_by_extension
                        (in_apples "img0.jpg") (fresh_world five_images)))
          = (slept (fresh_world five_images) + (j - 1))%nat.
Proof.
  split.
  - apply (proj1 (vectorize_image_effects (always_status 429) guess_by_extension
                    (in_apples "none.jpg") (fresh_world five_images))).
    reflexivity.
  - apply (proj1 (proj2 (vectorize_image_effects (always_status 429) guess_by_extension
                           (in_apples "img0.jpg") (fresh_world five_images))) "0").
    reflexivity.
Defined.

(** An endpoint that answers 503 twice and then the vector. *)
Lemma vector_is_the_last_answer_witness :
  exists content history r kvs,
    files (fresh_world five_images) !! in_apples "img0.jpg" = Some content
    /\ posted (after_requests 3 2
                 (request_for guess_by_extension (in_apples "img0.jpg") "0")
                 (fresh_world five_images))
       = history ++ [request_for guess_by_extension (in_apples "img0.jpg") content]
    /\ failing_first 2 503 unit_vector history
         (request_for guess_by_extension (in_apples "img0.jpg") content) = Responds r
    /\ (status_code r < 400 \/ 600 <= status_code r)
    /\ body r = Some (JObj kvs)
    /\ assoc "vector" kvs = Some unit_vector.
Proof.
  apply (vector_is_the_last_answer (failing_first 2 503 unit_vector) guess_by_extension
           (in_apples "img0.jpg") (fresh_world five_images) unit_vector
           (after_requests 3 2 (request_for guess_by_extension (in_apples "img0.jpg") "0")
              (fresh_world five_images))).
  vm_compute. reflexivity.
Defined.

(** A manifest of four entries of which one names an image, with an
    endpoint that answers 500 to every request. *)
Lemma requests_of_a_run_are_bounded_witness :
  (length (posted (snd (embed_images (always_status 500) guess_by_extension
                          (JArr sparse_entries) (fresh_world five_images))))
   <= length (posted (fresh_world five_images))
      + max_attempt_number * length (images_of 0 sparse_entries))%nat
  /\ (slept (snd (embed_images (always_status 500) guess_by_extension
                    (JArr sparse_entries) (fresh_world five_images)))
      <= slept (fresh_world five_images)
         + (max_attempt_number - 1) * length (images_of 0 sparse_entries))%nat.
Proof.
  apply (proj2 (proj2 (requests_of_a_run_are_bounded (always_status 500)
                         guess_by_extension sparse_entries (fresh_world five_images)))).
  check_entries.
Defined.

(** A manifest that is one entry instead of a list of entries. *)
Lemma manifest_that_is_not_a_list_witness :
  fst (embed_images (answering [unit_vector]) guess_by_extension (entry "img0.jpg")
         (fresh_world five_images))
  = Raise AttributeError
  /\ files (snd (embed_images (answering [unit_vector]) guess_by_extension
                   (entry "img0.jpg") (fresh_world five_images)))
       !! output_json_file = Some ""
  /\ posted (snd (embed_images (answering [unit_vector]) guess_by_extension
                    (entry "img0.jpg") (fresh_world five_images)))
     = posted (fresh_world five_images).
Proof.
  apply (manifest_that_is_not_a_list (answering [unit_vector]) guess_by_extension
           (entry "img0.jpg") (fresh_world five_images)).
  intros xs. discriminate.
Defined.

(** A manifest whose second item is a file name instead of an entry. *)
Lemma item_that_is_not_a_dict_aborts_witness :
  embed_images (answering [unit_vector]) guess_by_extension
    (JArr ([entry "img0.jpg"] ++ JStr "img1.jpg" :: [entry "img2.jpg"]))
    (fresh_world five_images)
  = (Raise AttributeError,
     snd (embed_from (answering [unit_vector]) guess_by_extension 0 [entry "img0.jpg"]
            (snd (open_write output_json_file (fresh_world five_images)))))
  /\ files (snd (embed_images (answering [unit_vector]) guess_by_extension
                   (JArr ([entry "img0.jpg"] ++ JStr "img1.jpg" :: [entry "img2.jpg"]))
                   (fresh_world five_images)))
       !! output_json_file
     = Some (store_text (records_from (answering [unit_vector]) guess_by_extension 0
                           [entry "img0.jpg"]
                           (snd (open_write output_json_file (fresh_world five_images)))))
  /\ stdout (snd (embed_images (answering [unit_vector]) guess_by_extension
                    (JArr ([entry "img0.jpg"] ++ JStr "img1.jpg" :: [entry "img2.jpg"]))
                    (fresh_world five_images)))
     = stdout (fresh_world five_images)
       ++ report_from (answering [unit_vector]) guess_by_extension 0 [entry "img0.jpg"]
            (snd (open_write output_json_file (fresh_world five_images))).
Proof.
  apply (item_that_is_not_a_dict_aborts (answering [unit_vector]) guess_by_extension
           [entry "img0.jpg"] (JStr "img1.jpg") [entry "img2.jpg"]
           (fresh_world five_images)).
  - check_entries.
  - intros kvs. discriminate.
Defined.

(** A manifest whose second entry has a number for its [image_path]. *)
Lemma image_path_that_is_not_a_string_aborts_witness :
  embed_images (answering [unit_vector]) guess_by_extension
    (JArr ([entry "img0.jpg"] ++ JObj [("image_path", JInt 7)] :: [entry "img2.jpg"]))
    (fresh_world five_images)
  = (Raise TypeError,
     snd (print (ErrorProcessing (length [entry "img0.jpg"]) TypeError)
            (snd (embed_from (answering [unit_vector]) guess_by_extension 0
                    [entry "img0.jpg"]
                    (snd (open_write output_json_file (fresh_world five_images)))))))
  /\ files (snd (embed_images (answering [unit_vector]) guess_by_extension
                   (JArr ([entry "img0.jpg"] ++ JObj [("image_path", JInt 7)]
                            :: [entry "img2.jpg"]))
                   (fresh_world five_images)))
       !! output_json_file
     = Some (store_text (records_from (answering [unit_vector]) guess_by_extension 0
                           [entry "img0.jpg"]
                           (snd (open_write output_json_file (fresh_world five_images)))))
  /\ stdout (snd (embed_images (answering [unit_vector]) guess_by_extension
                    (JArr ([entry "img0.jpg"] ++ JObj [("image_path", JInt 7)]
                             :: [entry "img2.jpg"]))
                    (fresh_world five_images)))
     = stdout (fresh_world five_images)
       ++ report_from (answering [unit_vector]) guess_by_extension 0 [entry "img0.jpg"]
            (snd (open_write output_json_file (fresh_world five_images)))
       ++ [ErrorProcessing (length [entry "img0.jpg"]) TypeError].
Proof.
  apply (image_path_that_is_not_a_string_aborts (answering [unit_vector])
           guess_by_extension [entry "img0.jpg"] [("image_path", JInt 7)] (JInt 7)
           [entry "img2.jpg"] (fresh_world five_images)).
  - check_entries.
  - reflexivity.
  - reflexivity.
  - intros s. discriminate.
Defined.

(** No manifest, and a manifest that is cut short. *)
Lemma unreadable_manifest_keeps_the_store_witness :
  embed_cell (answering [unit_vector]) guess_by_extension json_loads
    (fresh_world five_images)
  = (Raise (OSError input_json_file), fresh_world five_images)
  /\ embed_cell (answering [unit_vector]) guess_by_extension json_loads
       (fresh_world {[ input_json_file := "[{" ]})
     = (Raise JSONDecodeError, fresh_world {[ input_json_file := "[{" ]}).
Proof.
  split.
  - apply (proj1 (unreadable_manifest_keeps_the_store (answering [unit_vector])
                    guess_by_extension json_loads (fresh_world five_images))).
    reflexivity.
  - apply (proj1 (proj2 (unreadable_manifest_keeps_the_store (answering [unit_vector])
                           guess_by_extension json_loads
                           (fresh_world {[ input_json_file := "[{" ]})))
             "[{" JSONDecodeError); reflexivity.
Defined.

(** [fruit/apple.jpeg] *)
Lemma description_of_a_file_name_witness :
  description_of ("fruit" +:+ String "/" ("apple" +:+ String "." "jpeg")) = "apple"
  /\ description_of ("apple" +:+ String "." "jpeg") = "apple"
  /\ description_of ("fruit" +:+ String "/" "apple") = "apple"
  /\ description_of "apple" = "apple".
Proof.
  apply (description_of_a_file_name "fruit" "apple" "jpeg"); try discriminate;
    intros j; do 6 (destruct j as [|j]; [discriminate|]); discriminate.
Defined.

(** The [.env] file wins over the environment, and its empty admin key
    gives the default credential. *)
Lemma settings_of_the_environment_witness :
  load_dotenv sample_dotenv sample_environ !! "AZURE_SEARCH_ADMIN_KEY" = Some ""
  /\ load_settings (load_dotenv sample_dotenv sample_environ)
     = Ok {| endpoint := "https://search.example";
             credential := DefaultAzureCredential;
             index_name := "apples";
             vision_key := "vision-key";
             vision_endpoint := "https://vision.example" |}.
Proof.
  split.
  - rewrite (proj1 (settings_of_the_environment sample_dotenv sample_environ)).
    reflexivity.
  - apply (proj2 (settings_of_the_environment sample_dotenv sample_environ)).
    exists "". repeat split; reflexivity.
Defined.

(** An environment without [AZURE_SEARCH_INDEX]. *)
Lemma first_missing_variable_is_reported_witness :
  load_settings partial_environ = Raise (KeyError "AZURE_SEARCH_INDEX").
Proof.
  apply (first_missing_variable_is_reported partial_environ
           ["AZURE_SEARCH_SERVICE_ENDPOINT"; "AZURE_SEARCH_ADMIN_KEY"]
           "AZURE_SEARCH_INDEX"
           ["AZURE_AI_VISION_KEY"; "AZURE_AI_VISION_ENDPOINT"]).
  - reflexivity.
  - intros n Hn. apply elem_of_cons in Hn as [->|Hn]; [by eexists|].
    apply elem_of_cons in Hn as [->|Hn]; [by eexists|]. by apply elem_of_nil in Hn.
  - reflexivity.
Defined.

(** A store with an empty line after its record. *)
Lemma blank_line_aborts_the_load_witness :
  push_documents json_loads accepting_service
    (fresh_world {[ output_json_file :=
                      store_line (output_record 0 unit_vector "img0")
                      +:+ String newline "" ]})
  = (Raise JSONDecodeError,
     fresh_world {[ output_json_file :=
                      store_line (output_record 0 unit_vector "img0")
                      +:+ String newline "" ]}).
Proof.
  apply (blank_line_aborts_the_load accepting_service
           (store_line (output_record 0 unit_vector "img0") +:+ String newline "")
           (String newline "")).
  - reflexivity.
  - apply list_elem_of_lookup. exists 1%nat. reflexivity.
  - reflexivity.
Defined.

(** A store of two records and a service that accepts them. *)
Lemma push_reports_what_the_service_answers_witness :
  let records := [output_record 0 unit_vector "img0"; output_record 1 JNull "img1"] in
  let w := fresh_world {[ output_json_file := store_text records ]} in
  push_documents json_loads accepting_service w
  = (Ok tt,
     set_stdout (stdout w ++ [Indexed "0" 201; Indexed "1" 201])
       (set_uploaded (uploaded w ++ [records]) w)).
Proof.
  apply (push_reports_what_the_service_answers json_loads accepting_service
           (store_text [output_record 0 unit_vector "img0"; output_record 1 JNull "img1"])
           [output_record 0 unit_vector "img0"; output_record 1 JNull "img1"]
           (fresh_world {[ output_json_file :=
                             store_text [output_record 0 unit_vector "img0";
                                         output_record 1 JNull "img1"] ]})).
  - reflexivity.
  - repeat constructor.
Defined.

(** A record with floats and a quote. *)
Lemma stored_line_reads_back_witness :
  json_loads (json_dumps sample_record) = Ok sample_record
  /\ Str.strip (store_line sample_record) = json_dumps sample_record
  /\ json_loads (Str.strip (store_line sample_record)) = Ok sample_record.
Proof. apply (stored_line_reads_back sample_record). reflexivity. Defined.

(** Two records, one with a quote in its description. *)
Lemma store_has_one_line_per_record_witness :
  length (readlines (universal_newlines
                       (store_text [sample_record; output_record 1 JNull "img1"])))
  = length [sample_record; output_record 1 JNull "img1"]
  /\ forall i r,
       [sample_record; output_record 1 JNull "img1"] !! i = Some r ->
       readlines (universal_newlines
                    (store_text [sample_record; output_record 1 JNull "img1"])) !! i
       = Some (json_dumps r +:+ String newline "").
Proof.
  apply (store_has_one_line_per_record [sample_record; output_record 1 JNull "img1"]).
  reflexivity.
Defined.

(** Five images of which the third is rejected: the five records of the
    run are uploaded in one call. *)
Lemma run_then_push_uploads_the_records_witness :
  let stored := snd (embed_images (rejecting "2" 400 unit_vector) guess_by_extension
                       (JArr five_entries) (fresh_world five_images)) in
  let records := records_from (rejecting "2" 400 unit_vector) guess_by_extension 0
                   five_entries
                   (snd (open_write output_json_file (fresh_world five_images))) in
  uploaded (snd (push_documents json_loads accepting_service stored))
  = uploaded (fresh_world five_images) ++ [records]
  /\ fst (push_documents json_loads accepting_service stored)
     = match accepting_service records with
       | Ok _ => Ok tt
       | Raise e => Raise e
       end.
Proof.
  apply (run_then_push_uploads_the_records (rejecting "2" 400 unit_vector)
           guess_by_extension accepting_service five_entries (fresh_world five_images)).
  - intros history req r v. unfold rejecting, status_response, vector_response.
    destruct (String.eqb (data req) "2"); intros [= <-]; [discriminate|].
    intros [= <-]. reflexivity.
  - check_entries.
Defined.
